(* ===== verification/_CoqProject ===== *)
-Q . S2P
Prelude.v
PyStr.v
Format.v
Frame.v
Load.v
Filter.v
GroupBy.v
ValueCounts.v
Kpi.v
Charts.v
Dashboard.v
Options.v
Page.v
Session.v
