(* ===== verification/Prelude.v ===== *)
(** * A verification development for the space-missions dashboard

    The program, [src/dashboard.py], is one Dash application (119 lines).
    At start-up it reads [cleaned_space_missions.csv] into a pandas
    DataFrame, normalises the column names, drops rows without a year and
    converts the year to [int] (lines 7-10), computes the dropdown options
    and the slider bounds (lines 13-15), and builds the page (lines
    26-58).  Every change of a filter runs the callback [update] (lines
    68-116), which

    - calls [filter_df] (lines 60-66) to select the rows of the table
      (year range first, then countries, then companies);
    - computes four KPIs over the selected rows (launches, successes,
      success rate as a rounded percentage string, active rockets);
    - builds three charts: launches per year ([groupby('Year').size()]),
      the top 15 countries ([value_counts().head(15)]) and the mission
      outcomes per year ([groupby(['Year','Status_Mission']).size()]);
    - or, when no row is selected, three placeholder figures.

    The table is never mutated after loading; every callback run is a
    function of the loaded table and the three filter values.  Failures
    are values: [result] below carries the [KeyError], [IndexError],
    [ValueError] and [TypeError] the code can raise, and Dash's error
    for a callback id missing from the layout.

    ** Files (the library, in dependency order)

    - [Prelude] (this file): the Python error type and the result monad
      with its notation [let? x := c in k] ([dash_scope]), Python list
      indexing [py_index], truthiness, boolean-mask sums, the shared list
      lemmas, the hint databases [dash]/[dash_rw] and the tactic
      [dash_simp].
    - [PyStr]: the string functions the code calls, on ASCII text:
      [str.strip], [str.replace], [str.lower], [astype(str)], [str(int)].
    - [Format]: [round(x, 2)] on the exact rational and the [repr] of
      the rounded float; the success-rate text (line 84).
    - [Frame]: the loaded DataFrame: [Row] (the five columns the program
      reads), [Table] (labels and rows), [df[mask]] as [select], [isin],
      [empty], [shape[0]], and the invariant [table_wf].
    - [Load]: lines 7-10 from the CSV's fields: NA strings, label
      normalisation, [dropna(subset=['Year'])], the dtype [read_csv]
      infers for [Year], and [astype(int)] (truncation in a numeric
      column, [int()] or ValueError in a string column).
    - [Filter]: [filter_df], and [sel_equiv], the equivalence of two
      dropdown values that select the same set, with the [Proper]
      instances that let [rewrite] use it.
    - [GroupBy]: the interface [KeyOrder] (a class: a strict total order
      as a boolean test, instances for years, strings and pairs) and
      [groupby(..).size()] as sorted-insert counting.
    - [ValueCounts]: [value_counts()] (first-occurrence counting, stable
      sort by decreasing count) and [head(n)].
    - [Kpi]: the four KPI cards (lines 20-24, 82-92).
    - [Charts]: the figures of lines 94-114.
    - [Dashboard]: the callback [update], composed from the above.
    - [Options]: lines 13-15 and the layout's inputs (lines 26-58):
      [sorted(unique())] options, [min()]/[max()] bounds, the marks
      [range(min_year, max_year+1, 5)] (CPython's length-based [range]).
    - [Page]: [app.layout] as a tree of components with their ids and
      input values, the [@app.callback] declaration (lines 68-77), the
      return tuple of [update] written to the outputs in order, Dash's
      resolution of ids, and the inputs of the initial callback.
    - [Session]: the running page as a step relation: an input event and
      the callback run it triggers; start-up runs the callback once on
      the [value]s the page's input components hold.

    ** What the theorems show

    - [Filter] (C1-C6): the staged filters compute one row predicate;
      the result is a sublist of [df] (no mutation), monotone in the
      filters; a short slider value raises IndexError.
    - [Format] (C7-C8): rounding is nearest with ties to even; the rate
      text reads back as [k] hundredths within 0.005 of the exact rate.
    - [GroupBy], [ValueCounts] (C9-C14): the group tables are the
      unique strictly sorted tables of the abstract counts (a refinement
      of [key_count]); totals; [head(15)] keeps the tallest bars.
    - [Kpi], [Charts], [Dashboard] (C15-C24, C38): what each KPI counts
      (the exact status tests), the degraded mode without status
      columns, the charts' data, the consistency of charts with KPIs,
      including where they differ (rows with a missing country or status
      are counted by the KPI only), and that the outputs depend on the
      dropdown values only as sets (proved by rewriting with
      [sel_equiv]).
    - [Load] (C25-C30): label normalisation (strip, then replace), the
      KeyError without [Year], the result of a load of numeric years
      (records with a missing year dropped, the others truncated, in
      order), the year round trip and truncation, and the ValueError of
      a text column.
    - [Options] (C31-C34): the options equal the group keys of
      [group_size] (an equivalence of two pandas routes), the bounds are
      the least and greatest year (ValueError when empty), the marks,
      the start-up layout.
    - [Session] (C35-C37): a table with data starts the page; on every
      reachable page the slider and dropdowns hold values the layout
      allows and [kpi-row] shows the KPIs of the rows the inputs select
      (an invariant by rule induction); every event is answered without
      an exception (progress); the first view shows the whole table.

    ** Bounds and approximations

    Integers are unbounded [Z]: pandas' [int64] years and row counts are
    far from overflow for this data (years of four digits, fewer than
    2^63 rows), so no wrap-around is modelled.  [round] is computed on
    the exact quotient; it differs from binary64 [round] only where the
    float of [succ/total*100] falls on the other side of a tie, which
    the theorems state on the exact value.  A numeric [Year] field is
    read as an exact decimal where pandas reads a binary64 float; both
    truncate alike on fields of at most 15 significant digits (the
    argument is in [Load]), which the truncation theorem assumes.  No
    definition uses fuel: every loop of the model is structural
    recursion or a fold.

    ** Not modelled

    The styling of [app.layout] and [make_kpi_card] (the [style]
    dictionaries), [app = Dash(__name__)], [app.title], Plotly's
    rendering, the Dash server and its HTTP transport ([app.run_server]),
    and the splitting of the CSV file into fields: I/O and presentation
    of libraries the program only calls, which no callback reads.
    Number spellings in the CSV other than [[sign]digits[.digits]], and
    numeric fields of more than 15 significant digits, are outside the
    model of [read_csv]. *)

From stdpp Require Export base list strings gmap.
From Stdlib Require Export ZArith Lia.

(** ** Python exceptions and the result monad *)

(** The exceptions the modelled code can raise. *)
Inductive py_error :=
| KeyError (key : string)
| IndexError (msg : string)
| ValueError (msg : string)
| TypeError (msg : string)
(** Dash's "ID not found in layout" error for a callback id. *)
| IdNotFound (id : string).

#[export] Instance py_error_eq_dec : EqDecision py_error.
Proof. solve_decision. Defined.

(** A computation that returns a value or raises. *)
Inductive result (A : Type) :=
| Ok (a : A)
| Err (e : py_error).
Arguments Ok {A} a.
Arguments Err {A} e.

Definition rbind {A B} (c : result A) (k : A -> result B) : result B :=
  match c with
  | Ok a => k a
  | Err e => Err e
  end.

Definition rmap {A B} (f : A -> B) (c : result A) : result B :=
  rbind c (fun a => Ok (f a)).

Declare Scope dash_scope.
Delimit Scope dash_scope with dash.
Notation "'let?' x ':=' c 'in' k" := (rbind c (fun x => k))
  (at level 10, x name, c at level 100, k at level 200) : dash_scope.
Open Scope dash_scope.

(** Apply a fallible function to each element in order, raising the
    first error (a column conversion like [astype]). *)
Fixpoint result_map {A B} (f : A -> result B) (l : list A) : result (list B) :=
  match l with
  | [] => Ok []
  | x :: l' => let? y := f x in let? ys := result_map f l' in Ok (y :: ys)
  end.

(** ** Python lists *)

(** [l[i]] for a non-negative index: IndexError past the end. *)
Definition py_index {A} (l : list A) (i : nat) : result A :=
  match l !! i with
  | Some x => Ok x
  | None => Err (IndexError "list index out of range")
  end.

(** [if xs:] on a value that is [None] or a list. *)
Definition py_truthy {A} (o : option (list A)) : bool :=
  match o with
  | Some (_ :: _) => true
  | _ => false
  end.

(** [mask.sum()] on a boolean Series: the number of [True]. *)
Fixpoint mask_sum (m : list bool) : nat :=
  match m with
  | [] => 0
  | b :: m' => (if b then 1 else 0) + mask_sum m'
  end.

(** ** Shared lemmas *)

Create HintDb dash discriminated.
Create Rewrite HintDb dash_rw.

Lemma rbind_Ok {A B} (a : A) (k : A -> result B) : rbind (Ok a) k = k a.
Proof. reflexivity. Qed.

Lemma rbind_Err {A B} (e : py_error) (k : A -> result B) : rbind (Err e) k = Err e.
Proof. reflexivity. Qed.

Lemma py_index_lookup {A} (l : list A) i x : l !! i = Some x -> py_index l i = Ok x.
Proof. unfold py_index. by intros ->. Qed.

Lemma py_index_oob {A} (l : list A) i :
  length l <= i -> py_index l i = Err (IndexError "list index out of range").
Proof. unfold py_index. intros H. by rewrite lookup_ge_None_2. Qed.

Lemma mask_sum_map {A} (f : A -> bool) (l : list A) :
  mask_sum (map f l) = length (List.filter f l).
Proof. induction l as [|x l IH]; simpl; [done|]. destruct (f x); simpl; lia. Qed.

Lemma mask_sum_le {A} (f : A -> bool) (l : list A) :
  mask_sum (map f l) <= length l.
Proof. rewrite mask_sum_map. apply filter_length_le. Qed.

Lemma List_filter_sublist {A} (f : A -> bool) (l : list A) :
  List.filter f l `sublist_of` l.
Proof.
  induction l as [|x l IH]; simpl; [done|].
  destruct (f x); [by apply sublist_skip | by apply sublist_cons].
Qed.

Lemma List_filter_filter {A} (f g : A -> bool) (l : list A) :
  List.filter f (List.filter g l) = List.filter (fun x => g x && f x) l.
Proof.
  induction l as [|x l IH]; simpl; [done|].
  destruct (g x); simpl; [destruct (f x); simpl|]; by rewrite IH.
Qed.

Lemma List_filter_ext_in {A} (f g : A -> bool) (l : list A) :
  (forall x, x ∈ l -> f x = g x) -> List.filter f l = List.filter g l.
Proof.
  intros H. apply filter_ext_in. intros x Hx. apply H. by apply list_elem_of_In.
Qed.

Lemma List_filter_all {A} (f : A -> bool) (l : list A) :
  (forall x, x ∈ l -> f x = true) -> List.filter f l = l.
Proof.
  induction l as [|x l IH]; simpl; intros H; [done|].
  rewrite H by set_solver. f_equal. apply IH. set_solver.
Qed.

Lemma elem_of_List_filter {A} (f : A -> bool) (l : list A) x :
  x ∈ List.filter f l <-> x ∈ l /\ f x = true.
Proof. rewrite !list_elem_of_In. apply filter_In. Qed.

(** A filter with a stronger predicate keeps a sublist of a filter with a
    weaker one. *)
Lemma List_filter_sublist_mono {A} (f g : A -> bool) (l : list A) :
  (forall x, x ∈ l -> f x = true -> g x = true) ->
  List.filter f l `sublist_of` List.filter g l.
Proof.
  induction l as [|x l IH]; simpl; intros H; [done|].
  destruct (f x) eqn:Hf.
  - rewrite (H x) by set_solver. apply sublist_skip. apply IH. set_solver.
  - destruct (g x); [apply sublist_cons|]; apply IH; set_solver.
Qed.

Lemma result_map_Ok {A B} (f : A -> result B) l ys :
  result_map f l = Ok ys -> Forall2 (fun x y => f x = Ok y) l ys.
Proof.
  revert ys. induction l as [|x l IH]; simpl; intros ys H; [injection H as <-; constructor|].
  destruct (f x) as [y|e] eqn:Ef; simpl in H; [|discriminate].
  destruct (result_map f l) as [ys'|e]; simpl in H; [|discriminate].
  injection H as <-. constructor; [done|by apply IH].
Qed.

Lemma result_map_app_err {A B} (f : A -> result B) l1 x l2 e :
  Forall (fun y => exists z, f y = Ok z) l1 -> f x = Err e -> result_map f (l1 ++ x :: l2) = Err e.
Proof.
  intros Hl Hx. induction Hl as [|y l1 [z Hz] _ IH]; simpl; [by rewrite Hx|].
  by rewrite Hz, IH.
Qed.

#[export] Hint Resolve List_filter_sublist mask_sum_le : dash.
#[export] Hint Rewrite @rbind_Ok @rbind_Err @mask_sum_map @List_filter_filter : dash_rw.

(** Unfold a result chain and the boolean tests of the code. *)
Ltac dash_simp :=
  repeat (autorewrite with dash_rw in *; simpl in *;
          match goal with
          | H : Ok _ = Ok _ |- _ => injection H as H; subst
          | H : Ok _ = Err _ |- _ => discriminate H
          | H : Err _ = Ok _ |- _ => discriminate H
          | _ => idtac
          end).
