(* ===== verification/PyStr.v ===== *)
(** The Python string functions that [src/dashboard.py] calls, on strings
    as byte sequences: [str(int)], [str.isspace]/[str.strip],
    [str.replace] of one character, [str.lower], and [astype(str)] of a
    possibly-missing cell.  Letters outside ASCII are not case-mapped and
    Unicode-only white space is not stripped (see the header of Prelude). *)

From S2P Require Import Prelude.
From Stdlib Require Import Ascii DecimalString DecimalZ.

Module PyStr.

(** ** [str(n)] for an integer *)

Definition py_str_Z (z : Z) : string := NilEmpty.string_of_int (Z.to_int z).

Definition py_str_nat (n : nat) : string := py_str_Z (Z.of_nat n).

(** [int(s)] on the decimal strings [str] prints. *)
Definition py_int_of_str (s : string) : option Z :=
  Z.of_int <$> NilEmpty.int_of_string s.

(** ** White space, strip, replace, lower *)

(** [c.isspace()] on one byte: TAB, LF, VT, FF, CR, the separators
    0x1C-0x1F and the space. *)
Definition py_isspace (c : ascii) : bool :=
  match Ascii.nat_of_ascii c with
  | 9 | 10 | 11 | 12 | 13 | 28 | 29 | 30 | 31 | 32 => true
  | _ => false
  end.

Fixpoint lstrip (s : string) : string :=
  match s with
  | EmptyString => EmptyString
  | String c s' => if py_isspace c then lstrip s' else s
  end.

Definition rstrip (s : string) : string := String.rev (lstrip (String.rev s)).

(** [s.strip()]. *)
Definition py_strip (s : string) : string := rstrip (lstrip s).

(** [s.replace(old, new)] for one-character [old] and [new]. *)
Fixpoint py_replace_char (old new : ascii) (s : string) : string :=
  match s with
  | EmptyString => EmptyString
  | String c s' => String (if ascii_dec c old then new else c) (py_replace_char old new s')
  end.

(** [c.lower()] on one byte: A-Z to a-z. *)
Definition ascii_lower (c : ascii) : ascii :=
  let n := Ascii.nat_of_ascii c in
  if (65 <=? n) && (n <=? 90) then Ascii.ascii_of_nat (n + 32) else c.

Fixpoint py_lower (s : string) : string :=
  match s with
  | EmptyString => EmptyString
  | String c s' => String (ascii_lower c) (py_lower s')
  end.

(** [Series.astype(str)] at one cell: a missing value prints as ["nan"]. *)
Definition py_astype_str (v : option string) : string :=
  match v with
  | Some s => s
  | None => "nan"
  end.

(** Byte membership in a string. *)
Fixpoint str_has (c : ascii) (s : string) : bool :=
  match s with
  | EmptyString => false
  | String c' s' => bool_decide (c' = c) || str_has c s'
  end.

(** Whether every byte of a string satisfies [f]. *)
Fixpoint str_forall (f : ascii -> bool) (s : string) : bool :=
  match s with
  | EmptyString => true
  | String c s' => f c && str_forall f s'
  end.

(** ** Lemmas *)

(** [String.append] does not reduce under [simpl] with stdpp loaded. *)
Lemma str_app_cons c s t : (String c s ++ t)%string = String c (s ++ t)%string.
Proof. reflexivity. Qed.

Lemma str_app_nil t : ("" ++ t)%string = t.
Proof. reflexivity. Qed.

Lemma py_int_of_str_py_str_Z z : py_int_of_str (py_str_Z z) = Some z.
Proof.
  unfold py_int_of_str, py_str_Z. rewrite NilEmpty.isi. simpl. by rewrite DecimalZ.of_to.
Qed.

Lemma py_str_Z_inj z1 z2 : py_str_Z z1 = py_str_Z z2 -> z1 = z2.
Proof.
  intros H. apply (f_equal py_int_of_str) in H. rewrite !py_int_of_str_py_str_Z in H. congruence.
Qed.

Lemma str_has_replace_char old new s :
  old <> new -> str_has old (py_replace_char old new s) = false.
Proof.
  intros Hne. induction s as [|c s IH]; simpl; [done|].
  rewrite IH, orb_false_r. apply bool_decide_eq_false.
  destruct (ascii_dec c old); congruence.
Qed.

Lemma str_has_replace_other old new c s :
  c <> new -> str_has c (py_replace_char old new s) = str_has c s && negb (bool_decide (c = old)).
Proof.
  intros Hne. induction s as [|c' s IH]; simpl.
  - done.
  - rewrite IH. destruct (ascii_dec c' old) as [->|Hn].
    + rewrite (bool_decide_eq_false_2 (new = c)) by congruence.
      destruct (decide (old = c)) as [->|]; simpl.
      * rewrite bool_decide_eq_true_2 by done. by rewrite andb_false_r.
      * rewrite (bool_decide_eq_false_2 (old = c)) by done. done.
    + destruct (decide (c' = c)) as [->|Hc].
      * rewrite bool_decide_eq_true_2 by done. simpl.
        rewrite bool_decide_eq_false_2 by congruence. done.
      * rewrite !bool_decide_eq_false_2 by done. done.
Qed.

Lemma py_replace_char_id old new s :
  str_has old s = false -> py_replace_char old new s = s.
Proof.
  induction s as [|c s IH]; simpl; [done|].
  intros [Hc Hs]%orb_false_iff. rewrite IH by done.
  destruct (ascii_dec c old) as [->|]; [|done].
  by rewrite bool_decide_eq_true_2 in Hc.
Qed.

Lemma lstrip_idem s : lstrip (lstrip s) = lstrip s.
Proof.
  induction s as [|c s IH]; simpl; [done|].
  destruct (py_isspace c) eqn:E; [done|]. simpl. by rewrite E.
Qed.

Lemma py_lower_idem s : py_lower (py_lower s) = py_lower s.
Proof.
  induction s as [|c s IH]; simpl; [done|]. rewrite IH. f_equal.
  unfold ascii_lower. destruct c as [[] [] [] [] [] [] [] []]; reflexivity.
Qed.

Lemma append_assoc (a b c : string) : ((a ++ b) ++ c = a ++ (b ++ c))%string.
Proof.
  induction a as [|x a IH]; [done|].
  change (String x ((a ++ b) ++ c) = String x (a ++ (b ++ c)))%string. by rewrite IH.
Qed.

(** *** Strip *)

Lemma rev_app_acc a acc : String.rev_app a acc = (String.rev_app a "" ++ acc)%string.
Proof.
  revert acc. induction a as [|c a IH]; intros acc; simpl; [done|].
  rewrite IH, (IH (String c "")), append_assoc. done.
Qed.

Lemma rev_app_app a b acc : String.rev_app (a ++ b) acc = String.rev_app b (String.rev_app a acc).
Proof. revert acc. induction a as [|c a IH]; intros acc; simpl; [done|]. apply IH. Qed.

(** [rev (a ++ b) = rev b ++ rev a]. *)
Lemma rev_append a b : String.rev (a ++ b) = (String.rev b ++ String.rev a)%string.
Proof. unfold String.rev. by rewrite rev_app_app, rev_app_acc. Qed.

Lemma str_forall_rev_app f a acc :
  str_forall f (String.rev_app a acc) = str_forall f a && str_forall f acc.
Proof.
  revert acc. induction a as [|c a IH]; intros acc; simpl; [done|].
  rewrite IH. simpl. by destruct (f c), (str_forall f a).
Qed.

Lemma lstrip_spaces_app pre x :
  str_forall py_isspace pre = true -> lstrip (pre ++ x) = lstrip x.
Proof.
  induction pre as [|c pre IH]; simpl; [done|]. intros [-> H]%andb_true_iff. by apply IH.
Qed.

Lemma lstrip_spaces p : str_forall py_isspace p = true -> lstrip p = "".
Proof. induction p as [|c p IH]; simpl; [done|]. intros [-> H]%andb_true_iff. by apply IH. Qed.

(** Stripping the front of [s ++ t]: [t] is reached only when [s] is all
    blanks. *)
Lemma lstrip_app s t :
  lstrip (s ++ t) = match lstrip s with "" => lstrip t | u => (u ++ t)%string end.
Proof.
  induction s as [|c s IH]; [done|]. simpl.
  destruct (py_isspace c); [apply IH|done].
Qed.

Lemma rstrip_app_spaces x post :
  str_forall py_isspace post = true -> rstrip (x ++ post) = rstrip x.
Proof.
  intros H. unfold rstrip. rewrite rev_append, lstrip_spaces_app; [done|].
  unfold String.rev. by rewrite str_forall_rev_app, H.
Qed.

(** [s.strip()] ignores blanks added around [s]. *)
Lemma py_strip_pad pre s post :
  str_forall py_isspace pre = true -> str_forall py_isspace post = true ->
  py_strip (pre ++ s ++ post) = py_strip s.
Proof.
  intros Hpre Hpost. unfold py_strip. rewrite lstrip_spaces_app, lstrip_app by done.
  destruct (lstrip s) as [|c u]; [by rewrite lstrip_spaces|]. by apply rstrip_app_spaces.
Qed.

End PyStr.
