(* ===== verification/Format.v ===== *)
(** The success-rate text of [update] (src/dashboard.py, line 84):
    [f"{round((succ/total_launches*100),2)}%" if total_launches else "N/A"].

    [round(x, 2)] is Python's correctly rounded decimal rounding, ties to
    even; it is applied here to the exact rational [100 * succ / total]
    instead of the binary64 value of [succ/total*100].  The two agree
    except when the exact rate lies on a rounding tie (a value
    [n + 1/2] hundredths): away from a tie the rate is at least
    [1/(200 * total)] from the nearest tie, which exceeds the float error
    (below [5e-14]) for any table of fewer than [10^11] rows; on a tie the
    float error decides the direction ([round(0.005, 2)] is [0.01]).
    [repr] of the rounded float [k/100] (for [0 <= k]) is the decimal
    expansion of [k/100] with the trailing zeros of the fraction dropped
    but one digit kept, which is the shortest string that reads back to
    the same float. *)

From S2P Require Import Prelude PyStr.
From Stdlib Require Import Ascii DecimalString.
Import PyStr.

Module Format.

Local Open Scope Z_scope.

(** [round(a / b)] for [b > 0]: the nearest integer, ties to even. *)
Definition round_half_even (a b : Z) : Z :=
  let q := (a / b)%Z in
  let r := (a mod b)%Z in
  match Z.compare (2 * r) b with
  | Lt => q
  | Gt => (q + 1)%Z
  | Eq => if Z.even q then q else (q + 1)%Z
  end.

(** [round(succ/total*100, 2)] in hundredths of a percent. *)
Definition rate_hundredths (succ total : nat) : Z :=
  round_half_even (10000 * Z.of_nat succ) (Z.of_nat total).

Definition digit_char (d : Z) : ascii := Ascii.ascii_of_nat (48 + Z.to_nat d)%nat.

(** [repr(k / 100)] for [0 <= k]: integer part, point, one or two digits. *)
Definition float_repr_hundredths (k : Z) : string :=
  let i := (k / 100)%Z in
  let f := (k mod 100)%Z in
  (py_str_Z i ++ "." ++
   (if (f mod 10 =? 0)%Z then String (digit_char (f / 10)) ""
    else String (digit_char (f / 10)) (String (digit_char (f mod 10)) "")))%string.

(** Line 84. *)
Definition success_rate (succ total_launches : nat) : string :=
  match total_launches with
  | O => "N/A"
  | S _ => (float_repr_hundredths (rate_hundredths succ total_launches) ++ "%")%string
  end.

(** ** Reading a rate back *)

Fixpoint split_at (c : ascii) (s : string) : option (string * string) :=
  match s with
  | EmptyString => None
  | String a s' =>
      if ascii_dec a c then Some (EmptyString, s')
      else (fun p => (String a p.1, p.2)) <$> split_at c s'
  end.

Definition digit_val (c : ascii) : option Z := Z.of_nat <$> Ascii.is_nat c.

(** The hundredths a text ["<int>.<d>%"] or ["<int>.<d><d>%"] denotes. *)
Definition parse_rate (s : string) : option Z :=
  match split_at "." s with
  | Some (ip, fp) =>
      i ← py_int_of_str ip;
      match split_at "%" fp with
      | Some (String d1 EmptyString, EmptyString) =>
          d ← digit_val d1; Some (100 * i + 10 * d)%Z
      | Some (String d1 (String d2 EmptyString), EmptyString) =>
          d ← digit_val d1; e ← digit_val d2; Some (100 * i + 10 * d + e)%Z
      | _ => None
      end
  | None => None
  end.

(** ** Lemmas *)

Lemma round_half_even_cases a b :
  (0 < b)%Z ->
  let k := round_half_even a b in
  (2 * Z.abs (a - b * k) < b)%Z \/ (2 * Z.abs (a - b * k) = b /\ Z.even k = true).
Proof.
  intros Hb. unfold round_half_even.
  pose proof (Z.div_mod a b ltac:(lia)) as Hdm.
  pose proof (Z.mod_pos_bound a b Hb) as Hr.
  set (q := (a / b)%Z) in *. set (r := (a mod b)%Z) in *.
  destruct (Z.compare_spec (2 * r) b) as [Heq|Hlt|Hgt].
  - destruct (Z.even q) eqn:Ev.
    + right. split; [lia|done].
    + right. split; [lia|]. by rewrite Z.even_add, Ev.
  - left. lia.
  - left. lia.
Qed.

Lemma round_half_even_nearest a b :
  (0 < b)%Z -> (2 * Z.abs (a - b * round_half_even a b) <= b)%Z.
Proof. intros Hb. destruct (round_half_even_cases a b Hb) as [|[]]; lia. Qed.

Lemma round_half_even_bounds a b :
  (0 < b)%Z -> (0 <= a <= 10000 * b)%Z -> (0 <= round_half_even a b <= 10000)%Z.
Proof.
  intros Hb Ha. pose proof (round_half_even_nearest a b Hb).
  destruct (Z.le_gt_cases 0 (round_half_even a b)); [|nia].
  split; [done|]. nia.
Qed.

Lemma str_has_string_of_uint c d :
  str_has c (NilEmpty.string_of_uint d) = true -> (48 <= Ascii.nat_of_ascii c <= 57)%nat.
Proof.
  induction d; simpl; [done|..];
    intros [Hc%bool_decide_eq_true | H]%orb_true_iff; first [subst c; vm_compute; lia | auto].
Qed.

Lemma str_has_point_py_str_Z z : str_has "." (py_str_Z z) = false.
Proof.
  unfold py_str_Z, NilEmpty.string_of_int.
  destruct (Z.to_int z) as [d|d]; simpl.
  - destruct (str_has "." (NilEmpty.string_of_uint d)) eqn:E; [|done].
    apply str_has_string_of_uint in E. vm_compute in E. lia.
  - destruct (str_has "." (NilEmpty.string_of_uint d)) eqn:E; [|done].
    apply str_has_string_of_uint in E. vm_compute in E. lia.
Qed.

Lemma split_at_app c s1 s2 :
  str_has c s1 = false -> split_at c (s1 ++ String c s2)%string = Some (s1, s2).
Proof.
  induction s1 as [|a s1 IH]; simpl.
  - intros _. by destruct (ascii_dec c c).
  - intros [Ha Hs]%orb_false_iff.
    change (split_at c (String a (s1 ++ String c s2)))%string
      with (if ascii_dec a c then Some (EmptyString, (s1 ++ String c s2)%string)
            else (fun p => (String a p.1, p.2)) <$> split_at c (s1 ++ String c s2)%string).
    rewrite IH by done.
    destruct (ascii_dec a c) as [->|]; [|done].
    by rewrite bool_decide_eq_true_2 in Ha.
Qed.

Lemma digit_val_char d : (0 <= d < 10)%Z -> digit_val (digit_char d) = Some d.
Proof.
  intros Hd.
  assert (d = 0 \/ d = 1 \/ d = 2 \/ d = 3 \/ d = 4 \/ d = 5 \/ d = 6 \/ d = 7 \/ d = 8 \/ d = 9)%Z
    as Hc by lia.
  repeat destruct Hc as [->|Hc]; try (subst; reflexivity).
Qed.

Lemma split_at_repr i d :
  split_at "." ((py_str_Z i ++ "." ++ d) ++ "%")%string = Some (py_str_Z i, (d ++ "%")%string).
Proof. rewrite append_assoc. apply split_at_app, str_has_point_py_str_Z. Qed.

Lemma div_mod_digits k : 0 <= k ->
  k = 100 * (k / 100) + 10 * (k mod 100 / 10) + k mod 100 mod 10.
Proof.
  intros Hk. pose proof (Z.div_mod k 100 ltac:(lia)).
  pose proof (Z.div_mod (k mod 100) 10 ltac:(lia)). lia.
Qed.

Lemma digit_range a : 0 <= a -> 0 <= a mod 100 / 10 < 10 /\ 0 <= a mod 100 mod 10 < 10.
Proof.
  intros Ha. pose proof (Z.mod_pos_bound a 100 ltac:(lia)).
  pose proof (Z.mod_pos_bound (a mod 100) 10 ltac:(lia)).
  split; [split; [apply Z.div_pos|apply Z.div_lt_upper_bound]|]; lia.
Qed.

Lemma digit_char_not_percent d : 0 <= d < 10 -> bool_decide (digit_char d = "%"%char) = false.
Proof.
  intros Hd.
  assert (d = 0 \/ d = 1 \/ d = 2 \/ d = 3 \/ d = 4 \/ d = 5 \/ d = 6 \/ d = 7 \/ d = 8 \/ d = 9)
    as Hc by lia.
  repeat destruct Hc as [->|Hc]; try (subst; reflexivity).
Qed.

(** The printed hundredths read back. *)
Lemma parse_rate_repr k :
  0 <= k -> parse_rate (float_repr_hundredths k ++ "%")%string = Some k.
Proof.
  intros Hk. unfold float_repr_hundredths, parse_rate. cbv zeta.
  rewrite split_at_repr, py_int_of_str_py_str_Z.
  destruct (digit_range k Hk) as [Hd1 Hd2]. pose proof (div_mod_digits k Hk).
  cbn [mbind option_bind].
  destruct (Z.eqb_spec (k mod 100 mod 10) 0) as [H0|H0];
    rewrite split_at_app by (cbn; rewrite ?digit_char_not_percent by done; done);
    rewrite !digit_val_char by done; cbn; f_equal; lia.
Qed.

(** ** Theorems *)

(** C7: Python's [round] as modelled: [round_half_even a b] is an integer
    at distance at most one half from [a / b], and at distance exactly one
    half only when it is even (ties go to the even neighbour). *)
Theorem round_half_even_spec a b :
  (0 < b)%Z ->
  (2 * Z.abs (a - b * round_half_even a b) <= b)%Z /\
  (2 * Z.abs (a - b * round_half_even a b) = b -> Z.even (round_half_even a b) = true).
Proof.
  intros Hb. destruct (round_half_even_cases a b Hb) as [H|[H1 H2]]; split; try lia; auto.
Qed.

(** C8: the success-rate KPI of a non-empty selection with [succ <= total]
    reads back as a number [k] of hundredths of a percent, with
    [0 <= k <= 10000] (0.0% to 100.0%) and [k / 100] within 0.005 of the
    exact rate [100 * succ / total]. *)
Theorem success_rate_roundtrip succ total :
  (0 < total)%nat -> (succ <= total)%nat ->
  exists k, parse_rate (success_rate succ total) = Some k /\
            (0 <= k <= 10000)%Z /\
            (2 * Z.abs (10000 * Z.of_nat succ - Z.of_nat total * k) <= Z.of_nat total)%Z.
Proof.
  intros Ht Hs. exists (rate_hundredths succ total).
  assert (Hb : (0 <= rate_hundredths succ total <= 10000)%Z).
  { apply round_half_even_bounds; lia. }
  destruct total as [|t]; [lia|]. unfold success_rate.
  split; [apply parse_rate_repr; lia|]. split; [done|].
  apply round_half_even_nearest. lia.
Qed.

(** With no selected rows the success rate is the text "N/A". *)
Theorem success_rate_empty succ : success_rate succ 0 = "N/A".
Proof. reflexivity. Qed.

(** ** Witnesses *)

Example success_rate_third : success_rate 1 3 = "33.33%".
Proof. reflexivity. Qed.

Example success_rate_full : success_rate 4 4 = "100.0%".
Proof. reflexivity. Qed.

Example success_rate_eighth : success_rate 1 8 = "12.5%".
Proof. reflexivity. Qed.

Lemma round_half_even_spec_witness :
  (2 * Z.abs (5 - 2 * round_half_even 5 2) <= 2)%Z /\ round_half_even 5 2 = 2%Z.
Proof. split; [apply (round_half_even_spec 5 2); lia | reflexivity]. Defined.

Lemma success_rate_roundtrip_witness :
  exists k, parse_rate (success_rate 2 3) = Some k /\ (0 <= k <= 10000)%Z /\
            (2 * Z.abs (10000 * Z.of_nat 2 - Z.of_nat 3 * k) <= Z.of_nat 3)%Z.
Proof. apply (success_rate_roundtrip 2 3); lia. Defined.

End Format.
