(* ===== verification/Frame.v ===== *)
(** The loaded DataFrame of [src/dashboard.py] (the global [df] after
    lines 7-10): one [Row] per CSV line with the five columns the program
    reads, the column names after normalisation, boolean-mask selection
    [df[mask]], [Series.isin], [DataFrame.empty], and the well-formedness
    invariant of a loaded table. *)

From S2P Require Import Prelude.

Module Frame.

(** One launch record.  [Year] is an integer after [astype(int)] (line
    10); the text columns are a string or missing ([NaN]). *)
Record Row := mkRow {
  Year : Z;
  Country : option string;
  Company_Name : option string;
  Status_Mission : option string;
  Status_Rocket : option string
}.

#[export] Instance Row_eq_dec : EqDecision Row.
Proof. solve_decision. Defined.

(** A DataFrame: its column labels and its rows in index order. *)
Record Table := mkTable {
  columns : list string;
  rows : list Row
}.

#[export] Instance Table_eq_dec : EqDecision Table.
Proof. solve_decision. Defined.

(** [c in df.columns]. *)
Definition has_column (t : Table) (c : string) : bool :=
  bool_decide (c ∈ columns t).

(** [df[mask]]: keeps the rows whose mask entry is [True], in order, with
    the same columns. *)
Definition select (t : Table) (mask : Row -> bool) : Table :=
  mkTable (columns t) (List.filter mask (rows t)).

(** [df.shape[0]]. *)
Definition shape0 (t : Table) : nat := length (rows t).

(** [df.empty]: true when either axis has length 0. *)
Definition empty (t : Table) : bool :=
  match rows t, columns t with
  | [], _ | _, [] => true
  | _, _ => false
  end.

(** [series.isin(values)] at one cell: a missing value is never in a list
    of strings. *)
Definition isin (v : option string) (values : list string) : bool :=
  match v with
  | Some s => bool_decide (s ∈ values)
  | None => false
  end.

(** A column that the CSV does not have is read as missing in every row;
    [Year], [Country] and [Company_Name] are present (lines 9-14 raise
    [KeyError] otherwise). *)
Definition table_wf (t : Table) : Prop :=
  "Year" ∈ columns t /\ "Country" ∈ columns t /\ "Company_Name" ∈ columns t /\
  ("Status_Mission" ∉ columns t -> Forall (fun r => Status_Mission r = None) (rows t)) /\
  ("Status_Rocket" ∉ columns t -> Forall (fun r => Status_Rocket r = None) (rows t)).

(** ** Lemmas *)

Lemma select_columns t m : columns (select t m) = columns t.
Proof. reflexivity. Qed.

Lemma select_rows t m : rows (select t m) = List.filter m (rows t).
Proof. reflexivity. Qed.

Lemma select_select t f g :
  select (select t g) f = select t (fun r => g r && f r).
Proof. unfold select; simpl. by rewrite List_filter_filter. Qed.

Lemma select_sublist t m : rows (select t m) `sublist_of` rows t.
Proof. apply List_filter_sublist. Qed.

Lemma elem_of_select t m r : r ∈ rows (select t m) <-> r ∈ rows t /\ m r = true.
Proof. apply elem_of_List_filter. Qed.

(** Selection keeps the invariant: the columns do not change and the rows
    are a subset. *)
Lemma select_wf t m : table_wf t -> table_wf (select t m).
Proof.
  unfold table_wf, select; simpl.
  intros (Hy & Hc & Hco & Hs & Hr). do 3 (split; [done|]).
  split; intros Hn; apply Forall_forall; intros r Hin;
    apply elem_of_List_filter in Hin as [Hin _];
    [eapply Forall_forall in Hs | eapply Forall_forall in Hr]; eauto.
Qed.

Lemma isin_true v values : isin v values = true <-> exists s, v = Some s /\ s ∈ values.
Proof.
  destruct v as [s|]; simpl; split.
  - intros H%bool_decide_eq_true. eauto.
  - intros (s' & [= <-] & H). by apply bool_decide_eq_true.
  - done.
  - by intros (? & ? & _).
Qed.

Lemma isin_mono v l1 l2 : l1 ⊆ l2 -> isin v l1 = true -> isin v l2 = true.
Proof. rewrite !isin_true. intros Hsub (s & -> & Hs). eauto. Qed.

Lemma empty_rows t : columns t <> [] -> empty t = true <-> rows t = [].
Proof.
  unfold empty. destruct (rows t), (columns t); naive_solver.
Qed.

End Frame.

#[export] Hint Resolve Frame.select_sublist Frame.select_wf : dash.
#[export] Hint Rewrite Frame.select_columns Frame.select_rows : dash_rw.
