(* ===== verification/Load.v ===== *)
(** Loading the table (src/dashboard.py, lines 7-10): the CSV header is
    normalised ([str.strip()], then [' '] and ['-'] replaced by ['_']),
    rows whose [Year] field is missing are dropped, and [Year] is
    converted with [astype(int)].

    The CSV file is given as its header and its records, each a list of
    raw text fields (splitting the file into fields is not modelled).  A
    field is missing when it is one of pandas' default NA strings.  The
    [Year] column is numeric when every non-missing field is a decimal
    number ([-]digits[.digits]); [astype(int)] then truncates toward
    zero.  Otherwise the column holds strings and [astype(int)] calls
    [int()] on each, which raises ValueError on a non-integer text.
    Number spellings outside this grammar (exponents, [inf], surrounding
    blanks) are outside the model.

    A numeric field is read as the exact decimal, where pandas reads a
    binary64 float and truncates that.  The two agree on every field of
    at most 15 significant digits: such a non-integer decimal [x] lies
    at least [10^(k-15)] from the next integer (for [|x| < 10^k]), more
    than the parser's error [|x| * 2^-52], and every integer of at most
    15 digits is a float, so the float truncates like [x].  Longer fields
    ("2020.9999999999999" reads as 2021.0) are outside the model, and
    the theorems on fractional years assume the bound.  A missing [Year]
    label raises at line 9, [dropna(subset=['Year'])], with
    [KeyError(['Year'])].  The text columns are kept as strings
    or missing values; a column named twice after normalisation is read
    at its first occurrence. *)

From S2P Require Import Prelude PyStr Format Frame.
From Stdlib Require Import Ascii DecimalString DecimalZ.
Import PyStr Format Frame.

Module Load.

(** The CSV file: header fields and records of raw fields. *)
Record RawCsv := mkRawCsv { header : list string; records : list (list string) }.

(** pandas' default [na_values] of [read_csv]. *)
Definition na_values : list string :=
  [""; "#N/A"; "#N/A N/A"; "#NA"; "-1.#IND"; "-1.#QNAN"; "-NaN"; "-nan"; "1.#IND";
   "1.#QNAN"; "<NA>"; "N/A"; "NA"; "NULL"; "NaN"; "None"; "n/a"; "nan"; "null"].

(** Field [i] of a record: missing when absent or an NA string. *)
Definition field (r : list string) (i : nat) : option string :=
  match r !! i with
  | Some s => if bool_decide (s ∈ na_values) then None else Some s
  | None => None
  end.

(** Line 8, one label. *)
Definition normalize_col (c : string) : string :=
  py_replace_char "-" "_" (py_replace_char " " "_" (py_strip c)).

(** The position of a column label. *)
Definition col_index (cols : list string) (name : string) : option nat :=
  fst <$> list_find (fun c => c = name) cols.

(** [df.dropna(subset=[name])] on a missing label raises
    [KeyError([name])], printed ['Year']. *)
Definition get_col (cols : list string) (name : string) : result nat :=
  match col_index cols name with
  | Some i => Ok i
  | None => Err (KeyError ("['" ++ name ++ "']")%string)
  end.

(** ** Numbers *)

(** A non-empty run of decimal digits. *)
Definition parse_uint (s : string) : option Z := Z.of_uint <$> NilZero.uint_of_string s.

(** An unsigned [digits[.digits]] as mantissa and number of decimals. *)
Definition parse_udecimal (s : string) : option (Z * nat) :=
  match split_at "." s with
  | None => i ← parse_uint s; Some (i, 0%nat)
  | Some (ip, fp) =>
      i ← parse_uint ip;
      match fp with
      | EmptyString => Some (i, 0%nat)
      | _ => f ← parse_uint fp;
             Some (i * 10 ^ Z.of_nat (String.length fp) + f, String.length fp)%Z
      end
  end.

(** A field [read_csv] reads as a number: [[-|+]digits[.digits]]. *)
Definition parse_decimal (s : string) : option (Z * nat) :=
  match s with
  | String c r =>
      if ascii_dec c "-" then (fun p => (- p.1, p.2)%Z) <$> parse_udecimal r
      else if ascii_dec c "+" then parse_udecimal r
      else parse_udecimal s
  | EmptyString => None
  end.

(** Digits with single underscores between them, as [int()] accepts. *)
Fixpoint underscore_digits (s : string) (prev_digit : bool) : option string :=
  match s with
  | EmptyString => if prev_digit then Some EmptyString else None
  | String c r =>
      if ascii_dec c "_" then (if prev_digit then underscore_digits r false else None)
      else (fun t => String c t) <$> underscore_digits r true
  end.

(** [int(s)] on a string: blanks stripped, an optional sign, digits. *)
Definition py_int (s : string) : option Z :=
  let t := py_strip s in
  let '(sg, r) := match t with
                  | String c r => if ascii_dec c "-" then ((-1)%Z, r)
                                  else if ascii_dec c "+" then (1%Z, r) else (1%Z, t)
                  | EmptyString => (1%Z, t)
                  end in
  d ← underscore_digits r false; n ← parse_uint d; Some (sg * n)%Z.

(** The dtype [read_csv] infers for the year column: numeric when every
    present field is a number. *)
Definition year_numeric (fields : list (option string)) : bool :=
  forallb (fun o => match o with Some s => bool_decide (is_Some (parse_decimal s)) | None => true end)
    fields.

(** [astype(int)] on one year value. *)
Definition astype_int (numeric : bool) (s : string) : result Z :=
  if numeric then
    match parse_decimal s with
    | Some (m, d) => Ok (Z.quot m (10 ^ Z.of_nat d))
    | None => Err (ValueError s)
    end
  else
    match py_int s with
    | Some z => Ok z
    | None => Err (ValueError ("invalid literal for int() with base 10: '" ++ s ++ "'")%string)
    end.

(** ** Loading *)

(** One record of the loaded frame. *)
Definition load_row (cols : list string) (numeric : bool) (iy : nat) (r : list string) : result Row :=
  let? y := astype_int numeric (default "" (field r iy)) in
  Ok (mkRow y (col_index cols "Country" ≫= field r) (col_index cols "Company_Name" ≫= field r)
         (col_index cols "Status_Mission" ≫= field r) (col_index cols "Status_Rocket" ≫= field r)).

(** Lines 7-10. *)
Definition load (raw : RawCsv) : result Table :=
  let cols := map normalize_col (header raw) in
  let? iy := get_col cols "Year" in
  let numeric := year_numeric (map (fun r => field r iy) (records raw)) in
  let kept := List.filter (fun r => bool_decide (is_Some (field r iy))) (records raw) in
  let? rs := result_map (load_row cols numeric iy) kept in
  Ok (mkTable cols rs).


(** ** Lemmas *)

Lemma col_index_None cols name : col_index cols name = None <-> name ∉ cols.
Proof.
  unfold col_index. rewrite fmap_None, list_find_None.
  rewrite Forall_forall. split; [intros H Hin; by apply (H name)|]. intros H x Hx ->. done.
Qed.




Lemma str_has_digits_uint d : str_has "." (NilEmpty.string_of_uint d) = false.
Proof.
  destruct (str_has "." (NilEmpty.string_of_uint d)) eqn:E; [|done].
  apply str_has_string_of_uint in E. vm_compute in E. lia.
Qed.

Lemma split_at_absent c s : str_has c s = false -> split_at c s = None.
Proof.
  induction s as [|a s IH]; simpl; [done|]. intros [Ha Hs]%orb_false_iff.
  destruct (ascii_dec a c) as [->|]; [by rewrite bool_decide_eq_true_2 in Ha|].
  by rewrite IH.
Qed.

Lemma parse_udecimal_uint d :
  d <> Decimal.Nil -> parse_udecimal (NilEmpty.string_of_uint d) = Some (Z.of_uint d, 0%nat).
Proof.
  intros Hd. unfold parse_udecimal. rewrite split_at_absent by apply str_has_digits_uint.
  unfold parse_uint. replace (NilEmpty.string_of_uint d) with (NilZero.string_of_uint d)
    by (by destruct d). by rewrite NilZero.usu.
Qed.

Lemma to_int_not_nil z :
  Z.to_int z <> Decimal.Pos Decimal.Nil /\ Z.to_int z <> Decimal.Neg Decimal.Nil.
Proof.
  pose proof (DecimalZ.to_of (Z.to_int z)) as H. rewrite DecimalZ.of_to in H.
  split; intros Hz; rewrite Hz in H; discriminate.
Qed.

Lemma parse_uint_string_of_uint d :
  d <> Decimal.Nil -> parse_uint (NilEmpty.string_of_uint d) = Some (Z.of_uint d).
Proof.
  intros Hd. unfold parse_uint. replace (NilEmpty.string_of_uint d) with (NilZero.string_of_uint d)
    by (by destruct d). by rewrite NilZero.usu.
Qed.

Lemma parse_uint_nonneg s v : parse_uint s = Some v -> (0 <= v)%Z.
Proof. unfold parse_uint. intros (d & _ & ->)%fmap_Some. apply N2Z.is_nonneg. Qed.

(** A printed number starts with a digit, so it carries no sign. *)
Lemma parse_decimal_digits d rest :
  d <> Decimal.Nil ->
  parse_decimal (NilEmpty.string_of_uint d ++ rest) = parse_udecimal (NilEmpty.string_of_uint d ++ rest).
Proof. destruct d; [done|..]; reflexivity. Qed.

Lemma parse_decimal_uint d :
  d <> Decimal.Nil -> parse_decimal (NilEmpty.string_of_uint d) = parse_udecimal (NilEmpty.string_of_uint d).
Proof. destruct d; [done|..]; reflexivity. Qed.

Lemma parse_udecimal_frac d f v :
  d <> Decimal.Nil -> parse_uint f = Some v ->
  parse_udecimal (NilEmpty.string_of_uint d ++ String "." f) =
  Some (Z.of_uint d * 10 ^ Z.of_nat (String.length f) + v, String.length f)%Z.
Proof.
  intros Hd Hv. unfold parse_udecimal.
  rewrite split_at_app by apply str_has_digits_uint. cbn [fst snd].
  rewrite parse_uint_string_of_uint by done. simpl.
  destruct f as [|c f]; [discriminate|]. by rewrite Hv.
Qed.

Lemma quot_shift m v n :
  (0 <= m)%Z -> (0 <= v < 10 ^ n)%Z -> Z.quot (m * 10 ^ n + v) (10 ^ n) = m.
Proof.
  intros Hm Hv. rewrite Z.quot_div_nonneg by lia.
  rewrite Z.div_add_l by lia. rewrite Z.div_small by lia. lia.
Qed.

(** [str(z)] split by its sign. *)
Lemma py_str_Z_cases (z : Z) :
  exists d : Decimal.uint, d <> Decimal.Nil /\
    ((py_str_Z z = NilEmpty.string_of_uint d /\ z = Z.of_uint d) \/
     (py_str_Z z = String "-" (NilEmpty.string_of_uint d) /\ z = (- Z.of_uint d)%Z)).
Proof.
  pose proof (DecimalZ.of_to z) as Hz. pose proof (to_int_not_nil z) as [Hp Hn].
  unfold py_str_Z. destruct (Z.to_int z) as [d|d]; exists d;
    (split; [intros ->; auto|]); simpl in Hz; auto.
Qed.





(** ** Theorems *)

(** C25: line 8 on one label: blanks around a label are stripped before
    its spaces and hyphens become underscores, so a header cell " Status
    Mission " (or "Status-Mission" padded with tabs) is read as
    "Status_Mission". *)
Theorem normalize_col_spec pre c post :
  str_forall py_isspace pre = true -> str_forall py_isspace post = true -> py_strip c = c ->
  normalize_col (pre ++ c ++ post) = py_replace_char "-" "_" (py_replace_char " " "_" c).
Proof. intros Hpre Hpost Hc. unfold normalize_col. by rewrite py_strip_pad, Hc. Qed.

(** C26: a CSV with no header that normalises to "Year" is refused at
    line 9 with [KeyError(['Year'])]. *)
Theorem load_missing_year raw :
  Forall (fun c => normalize_col c <> "Year") (header raw) -> load raw = Err (KeyError "['Year']").
Proof.
  intros Hf. unfold load, get_col.
  replace (col_index (map normalize_col (header raw)) "Year") with (@None nat); [done|].
  symmetry. apply col_index_None. intros (c & Hc & Hin)%list_elem_of_fmap.
  eapply Forall_forall in Hf; [|done]. by apply Hf.
Qed.


(** C28: in a numeric column a printed year reads back as itself:
    [astype(int)] of the text [str(z)] is [z]. *)
Theorem astype_int_year_roundtrip z : astype_int true (py_str_Z z) = Ok z.
Proof.
  destruct (py_str_Z_cases z) as (d & Hd & [[-> ->] | [-> ->]]); unfold astype_int.
  - rewrite parse_decimal_uint, parse_udecimal_uint by done. by rewrite Z.quot_1_r.
  - cbn [parse_decimal]. rewrite parse_udecimal_uint by done. simpl. by rewrite Z.quot_1_r.
Qed.

(** C29: in a numeric column [astype(int)] truncates toward zero: a year
    written [str(z)] followed by a fractional part (as pandas prints
    floats, e.g. "2020.0" or "-3.7") gives [z], for fields of at most 15
    significant digits, where pandas' binary64 value truncates the same
    way as the decimal. *)
Theorem astype_int_truncates z f v :
  parse_uint f = Some v -> (v < 10 ^ Z.of_nat (String.length f))%Z ->
  (String.length (py_str_Z z) + String.length f <= 15)%nat ->
  astype_int true (py_str_Z z ++ "." ++ f) = Ok z.
Proof.
  intros Hf Hv _. pose proof (parse_uint_nonneg _ _ Hf).
  destruct (py_str_Z_cases z) as (d & Hd & [[-> ->] | [-> ->]]); unfold astype_int;
    assert (0 <= Z.of_uint d)%Z by apply N2Z.is_nonneg.
  - change ("." ++ f)%string with (String "." f).
    rewrite parse_decimal_digits, (parse_udecimal_frac _ _ v) by done. f_equal. apply quot_shift; lia.
  - change ("." ++ f)%string with (String "." f). rewrite str_app_cons. cbn [parse_decimal].
    rewrite (parse_udecimal_frac _ _ v) by done. simpl. f_equal.
    rewrite Z.quot_opp_l by lia. f_equal. apply quot_shift; lia.
Qed.


(** ** Witnesses *)


Lemma normalize_col_spec_witness :
  normalize_col (" " ++ "Status Mission" ++ "	") = "Status_Mission".
Proof. apply normalize_col_spec; reflexivity. Defined.

Lemma load_missing_year_witness :
  load (mkRawCsv ["year"; "Country"] [["2000"; "USA"]]) = Err (KeyError "['Year']").
Proof.
  apply load_missing_year. simpl.
  repeat constructor; intros H; vm_compute in H; discriminate H.
Defined.


Lemma astype_int_truncates_witness : astype_int true (py_str_Z 2020 ++ "." ++ "5") = Ok 2020%Z.
Proof. apply (astype_int_truncates 2020 "5" 5); [reflexivity|reflexivity|simpl; lia]. Defined.


End Load.
