(* ===== verification/Filter.v ===== *)
(** [filter_df] (src/dashboard.py, lines 60-66): the rows of the loaded
    table whose year lies in the slider range, then (when a selection is
    truthy) whose country, then whose company, is selected.  The theorems
    give the single row predicate the three stages compute, that the
    result only drops rows and never changes the table, that narrower
    filters give fewer rows, and the IndexError of a short range. *)

From S2P Require Import Prelude Frame.
Import Frame.

Module Filter.

(** [filter_df(selected_countries, selected_companies, year_range)]; the
    global [df] is an explicit argument. *)
Definition filter_df (df : Table) (selected_countries selected_companies : option (list string))
    (year_range : list Z) : result Table :=
  let? lo := py_index year_range 0 in
  let? hi := py_index year_range 1 in
  let dff := select df (fun r => (lo <=? Year r)%Z && (Year r <=? hi)%Z) in
  let dff := if py_truthy selected_countries
             then select dff (fun r => isin (Country r) (default [] selected_countries))
             else dff in
  let dff := if py_truthy selected_companies
             then select dff (fun r => isin (Company_Name r) (default [] selected_companies))
             else dff in
  Ok dff.

(** ** Specification *)

(** What one dropdown lets through: everything when nothing is selected,
    else the rows whose value is one of the selected ones. *)
Definition accepts (sel : option (list string)) (v : option string) : bool :=
  if py_truthy sel then isin v (default [] sel) else true.

(** The row predicate of the whole function. *)
Definition row_selected (sc sco : option (list string)) (lo hi : Z) (r : Row) : bool :=
  (lo <=? Year r)%Z && (Year r <=? hi)%Z && accepts sc (Country r) && accepts sco (Company_Name r).

(** [narrower wide narrow]: the dropdown value [narrow] lets through no
    more than [wide]. *)
Definition narrower (wide narrow : option (list string)) : Prop :=
  (py_truthy narrow = false -> py_truthy wide = false) /\
  (py_truthy wide = true -> py_truthy narrow = true -> default [] narrow ⊆ default [] wide).

(** Two dropdown values that select the same values: Dash sends a
    multi-select value as a list whose order and repetitions depend on
    the clicks, and [isin] only tests membership. *)
Definition sel_equiv (a b : option (list string)) : Prop :=
  forall s, s ∈ default [] a <-> s ∈ default [] b.

(** ** Lemmas *)

#[export] Instance sel_equiv_equivalence : Equivalence sel_equiv.
Proof.
  split; unfold sel_equiv; [done|intros a b H s; by rewrite H|intros a b c H1 H2 s; by rewrite H1, H2].
Qed.

Lemma py_truthy_equiv a b : sel_equiv a b -> py_truthy a = py_truthy b.
Proof.
  unfold sel_equiv. intros H.
  destruct a as [[|x a]|], b as [[|y b]|]; simpl in *; try done;
    first [pose proof (proj2 (H y)) as Hy; set_solver | pose proof (proj1 (H x)) as Hx; set_solver].
Qed.

#[export] Instance accepts_proper : Proper (sel_equiv ==> eq ==> eq) accepts.
Proof.
  intros a b Hab v ? <-. unfold accepts. rewrite (py_truthy_equiv a b Hab).
  destruct (py_truthy b); [|done]. destruct v as [s|]; simpl; [|done].
  apply bool_decide_ext, Hab.
Qed.

Lemma select_ext t f g : (forall r, f r = g r) -> select t f = select t g.
Proof. intros H. unfold select. f_equal. apply List_filter_ext_in. auto. Qed.

Lemma filter_df_unfold df sc sco lo hi rest :
  filter_df df sc sco (lo :: hi :: rest) = Ok (select df (row_selected sc sco lo hi)).
Proof.
  unfold filter_df, py_index, row_selected, accepts; simpl.
  destruct (py_truthy sc), (py_truthy sco); rewrite ?select_select;
    f_equal; apply select_ext; intros r; rewrite ?andb_true_r, ?andb_assoc; done.
Qed.

Lemma accepts_narrower wide narrow v :
  narrower wide narrow -> accepts narrow v = true -> accepts wide v = true.
Proof.
  unfold accepts, narrower. intros [H1 H2].
  destruct (py_truthy narrow) eqn:En, (py_truthy wide) eqn:Ew; try done.
  - intros. eapply isin_mono; [|done]. by apply H2.
  - specialize (H1 eq_refl). congruence.
Qed.

Lemma accepts_spec sel v :
  accepts sel v = true <->
  (forall cs, sel = Some cs -> cs <> [] -> exists s, v = Some s /\ s ∈ cs).
Proof.
  unfold accepts. destruct sel as [[|c cs]|]; simpl.
  - split; [|done]. intros _ cs [= <-]. done.
  - rewrite isin_true. split.
    + intros H ? [= <-] _. done.
    + intros H. by apply (H (c :: cs)).
  - split; [|done]. intros _ ? [=].
Qed.

#[export] Instance filter_df_proper : Proper (eq ==> sel_equiv ==> sel_equiv ==> eq ==> eq) filter_df.
Proof.
  intros df ? <- a b Hab c d Hcd yr ? <-.
  destruct yr as [|lo [|hi rest]]; [done|done|]. rewrite !filter_df_unfold.
  f_equal. apply select_ext. intros r. unfold row_selected. by rewrite Hab, Hcd.
Qed.

(** ** Theorems *)

(** C1: with a two-value slider range, [filter_df] returns the rows of [df]
    that satisfy the one predicate [row_selected] (year in the closed
    range, country and company accepted), in their original order and
    with the columns of [df]: the three staged selections compute this
    single filter. *)
Theorem filter_df_spec df sc sco lo hi rest :
  filter_df df sc sco (lo :: hi :: rest) =
  Ok (mkTable (columns df) (List.filter (row_selected sc sco lo hi) (rows df))).
Proof. apply filter_df_unfold. Qed.

(** C2: a row is in the result of [filter_df] exactly when it is a row of
    [df], its year is within [lo..hi] (both ends included), and, for each
    non-empty dropdown selection, its country (resp. company) is present
    and one of the selected values; rows with a missing country are
    dropped as soon as a country is selected. *)
Theorem filter_df_elem df sc sco lo hi rest dff r :
  filter_df df sc sco (lo :: hi :: rest) = Ok dff ->
  r ∈ rows dff <->
  r ∈ rows df /\ (lo <= Year r <= hi)%Z /\
  (forall cs, sc = Some cs -> cs <> [] -> exists c, Country r = Some c /\ c ∈ cs) /\
  (forall cs, sco = Some cs -> cs <> [] -> exists c, Company_Name r = Some c /\ c ∈ cs).
Proof.
  rewrite filter_df_unfold. intros [= <-].
  rewrite elem_of_select, <- !accepts_spec. unfold row_selected.
  rewrite !andb_true_iff, Z.leb_le, Z.leb_le. tauto.
Qed.

(** C3: filtering never mutates the source table: a successful
    [filter_df] keeps the columns of [df], its rows are a sublist of the
    rows of [df] (same order, nothing added or changed), and a
    well-formed table stays well-formed. *)
Theorem filter_df_sublist df sc sco yr dff :
  filter_df df sc sco yr = Ok dff ->
  columns dff = columns df /\ rows dff `sublist_of` rows df /\
  (table_wf df -> table_wf dff).
Proof.
  destruct yr as [|lo [|hi rest]]; [discriminate|discriminate|].
  rewrite filter_df_unfold. intros [= <-]. auto with dash.
Qed.

(** C4: narrowing the filters narrows the result: a sub-range of years
    and dropdown selections that let through no more values give a
    sublist of the rows, hence no more rows ([df.shape[0]] decreases
    monotonically). *)
Theorem filter_df_monotone df sc1 sco1 lo1 hi1 rest1 sc2 sco2 lo2 hi2 rest2 d1 d2 :
  (lo1 <= lo2)%Z -> (hi2 <= hi1)%Z -> narrower sc1 sc2 -> narrower sco1 sco2 ->
  filter_df df sc1 sco1 (lo1 :: hi1 :: rest1) = Ok d1 ->
  filter_df df sc2 sco2 (lo2 :: hi2 :: rest2) = Ok d2 ->
  rows d2 `sublist_of` rows d1 /\ shape0 d2 <= shape0 d1.
Proof.
  rewrite !filter_df_unfold. intros Hlo Hhi Hc Hco [= <-] [= <-].
  assert (Hs : rows (select df (row_selected sc2 sco2 lo2 hi2))
                 `sublist_of` rows (select df (row_selected sc1 sco1 lo1 hi1))).
  { apply List_filter_sublist_mono. intros r _. unfold row_selected.
    rewrite !andb_true_iff, !Z.leb_le. intros [[[? ?] ?] ?].
    split; [split; [split|]|]; try lia; eapply accepts_narrower; eauto. }
  split; [done|]. unfold shape0. by apply sublist_length.
Qed.

(** C5: a slider value with fewer than two entries makes [filter_df]
    raise IndexError (at [year_range[0]] or [year_range[1]]). *)
Theorem filter_df_short_range df sc sco yr :
  length yr < 2 ->
  filter_df df sc sco yr = Err (IndexError "list index out of range").
Proof. destruct yr as [|lo [|hi rest]]; simpl; [done|done|lia]. Qed.

(** C6: with no dropdown selection (None or an empty list) and a range
    covering every year of [df], [filter_df] returns [df] itself. *)
Theorem filter_df_all df sc sco lo hi rest :
  py_truthy sc = false -> py_truthy sco = false ->
  Forall (fun r => lo <= Year r <= hi)%Z (rows df) ->
  filter_df df sc sco (lo :: hi :: rest) = Ok df.
Proof.
  intros Hsc Hsco Hall. rewrite filter_df_unfold. destruct df as [cols rs].
  unfold select; simpl. f_equal. f_equal. apply List_filter_all.
  intros r Hr. eapply Forall_forall in Hall; [|done].
  unfold row_selected, accepts. rewrite Hsc, Hsco, !andb_true_r, andb_true_iff, !Z.leb_le.
  lia.
Qed.

(** ** Witnesses *)

(** A three-row sample: a USA launch of 2000, a Russian launch of 2005,
    and a launch of 2010 with no country. *)
Definition sample : Table :=
  mkTable ["Year"; "Country"; "Company_Name"; "Status_Mission"]
    [ mkRow 2000 (Some "USA") (Some "NASA") (Some "Success") None;
      mkRow 2005 (Some "Russia") (Some "RVSN") (Some "Failure") None;
      mkRow 2010 None (Some "SpaceX") (Some "Success") None ].

Lemma sample_wf : table_wf sample.
Proof.
  unfold table_wf, sample; simpl. split; [set_solver|]. split; [set_solver|].
  split; [set_solver|]. split; intros Hn; [set_solver|]. repeat constructor.
Qed.

Lemma filter_df_elem_witness :
  mkRow 2000 (Some "USA") (Some "NASA") (Some "Success") None ∈
    rows (mkTable (columns sample)
            (List.filter (row_selected (Some ["USA"]) None 1990 2008) (rows sample))).
Proof.
  apply (proj2 (filter_df_elem sample (Some ["USA"]) None 1990 2008 [] _ _
                  (filter_df_unfold _ _ _ _ _ _))).
  split; [set_solver|]. split; [simpl; lia|].
  split; [intros cs [= <-] _; exists "USA"; split; [done|set_solver]|].
  intros cs [=].
Defined.

Lemma filter_df_sublist_witness :
  rows (mkTable (columns sample) (List.filter (row_selected None None 2001 2010) (rows sample)))
    `sublist_of` rows sample.
Proof.
  apply (filter_df_sublist sample None None [2001; 2010]%Z _ (filter_df_unfold _ _ _ _ _ _)).
Defined.

Lemma filter_df_monotone_witness :
  shape0 (mkTable (columns sample) (List.filter (row_selected (Some ["USA"]) None 2000 2004) (rows sample)))
  <= shape0 (mkTable (columns sample) (List.filter (row_selected None None 1990 2010) (rows sample))).
Proof.
  apply (filter_df_monotone sample None None 1990 2010 [] (Some ["USA"]) None 2000 2004 []);
    try lia; try apply filter_df_unfold; unfold narrower; simpl; split; done.
Defined.

Lemma filter_df_short_range_witness :
  filter_df sample None None [2000%Z] = Err (IndexError "list index out of range").
Proof. apply filter_df_short_range. simpl. lia. Defined.

Lemma filter_df_all_witness : filter_df sample None (Some []) [1950; 2020]%Z = Ok sample.
Proof.
  apply filter_df_all; try reflexivity.
  repeat constructor; simpl; lia.
Defined.

End Filter.
