(* ===== verification/GroupBy.v ===== *)
(** pandas' [groupby(keys).size()] as the dashboard uses it (src/dashboard.py
    lines 100 and 111): one row per distinct key, keys in increasing order
    ([sort=True] is pandas' default), each with the number of rows that
    have it.  The key order is an interface, the class [KeyOrder] (a
    strict total order given by a boolean test), with instances for years
    ([Z]), strings and pairs (the [(Year, Status_Mission)] key of chart 3).

    The implementation [group_size] inserts the keys one by one into a
    strictly sorted table of counts; its theorems are stated against the
    abstract count [key_count] (how many of the keys equal [k]) and show
    that the table is the unique strictly sorted table with those counts. *)

From S2P Require Import Prelude.
From Stdlib Require Import Sorted.

(** ** The key-order interface *)

Class KeyOrder (K : Type) `{EqDecision K} := {
  key_ltb : K -> K -> bool;
  key_ltb_irrefl : forall k, key_ltb k k = false;
  key_ltb_trans : forall a b c, key_ltb a b = true -> key_ltb b c = true -> key_ltb a c = true;
  key_ltb_total : forall a b, key_ltb a b = false -> key_ltb b a = false -> a = b
}.

#[export] Instance Z_KeyOrder : KeyOrder Z.
Proof.
  refine {| key_ltb := Z.ltb |}.
  - intros k. apply Z.ltb_irrefl.
  - intros a b c. rewrite !Z.ltb_lt. lia.
  - intros a b. rewrite !Z.ltb_ge. lia.
Defined.

Lemma string_compare_refl s : String.compare s s = Eq.
Proof.
  induction s as [|c s IH]; simpl; [done|].
  unfold Ascii.compare. by rewrite N.compare_refl.
Qed.

#[export] Instance string_KeyOrder : KeyOrder string.
Proof.
  refine {| key_ltb := String.ltb |}; unfold String.ltb.
  - intros k. by rewrite string_compare_refl.
  - intros a b c Hab Hbc.
    destruct (String.compare a b) eqn:E1; try done.
    destruct (String.compare b c) eqn:E2; try done.
    assert (Hle : String.le a c).
    { transitivity b; unfold String.le, String.leb; [by rewrite E1 | by rewrite E2]. }
    unfold String.le, String.leb in Hle.
    destruct (String.compare a c) eqn:E3; try done.
    apply String.compare_eq_iff in E3 as <-.
    rewrite String.compare_antisym, E1 in E2. discriminate.
  - intros a b Hab Hba.
    rewrite String.compare_antisym in Hba.
    destruct (String.compare a b) eqn:E; try done.
    by apply String.compare_eq_iff.
Defined.

(** Lexicographic order on pairs: [groupby(['Year','Status_Mission'])]. *)
#[export] Instance prod_KeyOrder `{KeyOrder A} `{KeyOrder B} : KeyOrder (A * B).
Proof.
  refine {| key_ltb := fun p q => key_ltb p.1 q.1 || (bool_decide (p.1 = q.1) && key_ltb p.2 q.2) |}.
  - intros [a b]; simpl. rewrite !key_ltb_irrefl. by destruct (bool_decide _).
  - intros [a1 b1] [a2 b2] [a3 b3]; simpl.
    intros [H12|[->%bool_decide_eq_true H12]%andb_true_iff]%orb_true_iff
           [H23|[->%bool_decide_eq_true H23]%andb_true_iff]%orb_true_iff;
      apply orb_true_iff.
    + left. by eapply key_ltb_trans.
    + by left.
    + by left.
    + right. rewrite bool_decide_eq_true_2 by done. simpl. by eapply key_ltb_trans.
  - intros [a1 b1] [a2 b2]; simpl.
    intros [H1 H2]%orb_false_iff [H3 H4]%orb_false_iff.
    assert (a1 = a2) as <- by (by apply key_ltb_total).
    rewrite bool_decide_eq_true_2 in H2, H4 by done. simpl in *.
    f_equal. by apply key_ltb_total.
Defined.

Module GroupBy.

Section GroupBy.
Context `{KeyOrder K}.

(** ** Definitions *)

(** Count one more occurrence of [k] in a table sorted by key. *)
Fixpoint count_insert (k : K) (m : list (K * nat)) : list (K * nat) :=
  match m with
  | [] => [(k, 1)]
  | (k', n) :: m' =>
      if key_ltb k k' then (k, 1) :: m
      else if key_ltb k' k then (k', n) :: count_insert k m'
      else (k', S n) :: m'
  end.

(** [pd.Series(keys).groupby(keys).size()]: the sorted table of counts. *)
Definition group_size (keys : list K) : list (K * nat) :=
  foldl (fun m k => count_insert k m) [] keys.

(** [table.sort_values(key)]: insertion by key, equal keys kept in order. *)
Fixpoint insert_by_key (p : K * nat) (l : list (K * nat)) : list (K * nat) :=
  match l with
  | [] => [p]
  | q :: l' => if key_ltb p.1 q.1 then p :: l else q :: insert_by_key p l'
  end.

Definition sort_by_key (l : list (K * nat)) : list (K * nat) :=
  foldl (fun acc p => insert_by_key p acc) [] l.

(** ** Specification *)

(** How many of the keys are [k]. *)
Definition key_count (keys : list K) (k : K) : nat :=
  length (List.filter (fun x => bool_decide (x = k)) keys).

(** The count a table gives to [k] (0 when absent). *)
Fixpoint assoc (m : list (K * nat)) (k : K) : nat :=
  match m with
  | [] => 0
  | (k', n) :: m' => if decide (k = k') then n else assoc m' k
  end.

Definition key_lt (p q : K * nat) : Prop := key_ltb p.1 q.1 = true.

(** A table whose keys strictly increase and whose counts are positive. *)
Definition table_ok (m : list (K * nat)) : Prop :=
  Sorted key_lt m /\ Forall (fun p => 0 < p.2) m.

Definition counts_total (m : list (K * nat)) : nat := sum_list (map snd m).

(** ** Lemmas *)

Lemma key_lt_trans : Relations_1.Transitive key_lt.
Proof. intros p q r. unfold key_lt. apply key_ltb_trans. Qed.

Lemma table_sorted_strong m : Sorted key_lt m -> StronglySorted key_lt m.
Proof. apply Sorted_StronglySorted, key_lt_trans. Qed.

Lemma assoc_absent m k :
  StronglySorted key_lt m -> Forall (fun p => key_ltb k p.1 = true) m -> assoc m k = 0.
Proof.
  induction m as [|[k' n] m IH]; simpl; [done|].
  intros Hs Hf. inversion Hs; subst. inversion Hf; subst.
  case_decide; [subst; simpl in *; by rewrite key_ltb_irrefl in *|]. by apply IH.
Qed.

Lemma count_insert_HdRel k p m :
  key_lt p (k, 1) -> HdRel key_lt p m -> HdRel key_lt p (count_insert k m).
Proof.
  intros Hpk Hd. destruct m as [|[k' n] m]; simpl; [by constructor|].
  inversion Hd; subst.
  destruct (key_ltb k k'); [by constructor|].
  destruct (key_ltb k' k); constructor; done.
Qed.

Lemma count_insert_sorted k m : Sorted key_lt m -> Sorted key_lt (count_insert k m).
Proof.
  induction m as [|[k' n] m IH]; simpl; intros Hs; [repeat constructor|].
  inversion Hs as [|? ? Hsm Hhd]; subst.
  destruct (key_ltb k k') eqn:E1; [constructor; [done|by constructor]|].
  destruct (key_ltb k' k) eqn:E2.
  - constructor; [by apply IH|]. by apply count_insert_HdRel.
  - assert (k = k') as <- by (by apply key_ltb_total).
    constructor; [done|]. destruct m as [|[k2 n2] m]; constructor. by inversion Hhd.
Qed.

Lemma count_insert_pos k m :
  Forall (fun p => 0 < p.2) m -> Forall (fun p => 0 < p.2) (count_insert k m).
Proof.
  induction m as [|[k' n] m IH]; simpl; intros Hf; [repeat constructor; simpl; lia|].
  inversion Hf; subst.
  destruct (key_ltb k k'); [repeat constructor; simpl; auto; lia|].
  destruct (key_ltb k' k); constructor; simpl in *; auto; lia.
Qed.

Lemma count_insert_assoc k m j :
  Sorted key_lt m ->
  assoc (count_insert k m) j = assoc m j + (if decide (j = k) then 1 else 0).
Proof.
  induction m as [|[k' n] m IH]; intros Hs; simpl.
  - repeat case_decide; lia.
  - pose proof (table_sorted_strong _ Hs) as Hss. inversion Hss; subst.
    destruct (key_ltb k k') eqn:E1.
    + simpl. case_decide as Hjk; [subst|].
      * rewrite decide_False; [|intros ->; by rewrite key_ltb_irrefl in E1].
        rewrite (assoc_absent m k); [lia|done|].
        eapply Forall_impl; [done|]. intros p Hp. by eapply key_ltb_trans.
      * simpl. lia.
    + destruct (key_ltb k' k) eqn:E2; simpl.
      * rewrite IH by (by inversion Hs).
        repeat case_decide; subst; rewrite ?key_ltb_irrefl in E2; try discriminate; lia.
      * assert (k = k') as <- by (by apply key_ltb_total).
        repeat case_decide; subst; try done; lia.
Qed.

Lemma count_insert_total k m : counts_total (count_insert k m) = S (counts_total m).
Proof.
  unfold counts_total. induction m as [|[k' n] m IH]; simpl; [done|].
  destruct (key_ltb k k'); [done|]. destruct (key_ltb k' k); simpl; lia.
Qed.

Lemma key_count_snoc keys k j :
  key_count (keys ++ [k]) j = key_count keys j + (if decide (j = k) then 1 else 0).
Proof.
  unfold key_count. rewrite List.filter_app, length_app. simpl.
  case_bool_decide; case_decide; subst; simpl; try congruence; lia.
Qed.

Lemma table_ok_cons p m : table_ok (p :: m) ->
  table_ok m /\ 0 < p.2 /\ Forall (key_lt p) m.
Proof.
  intros [Hs Hp]. inversion Hp; subst.
  pose proof (table_sorted_strong _ Hs) as Hss. inversion Hss; subst.
  split; [split; [by inversion Hs|done]|]. done.
Qed.

(** Keys above the head of a table are absent from its tail. *)
Lemma assoc_below k p m :
  table_ok (p :: m) -> key_ltb k p.1 = true -> assoc (p :: m) k = 0.
Proof.
  intros Hok Hk. destruct (table_ok_cons _ _ Hok) as [[Hs _] [_ Hf]].
  apply assoc_absent; [by apply table_sorted_strong; destruct Hok|].
  constructor; [done|]. eapply Forall_impl; [done|]. intros q Hq. by eapply key_ltb_trans.
Qed.

Lemma assoc_tail_head p m : table_ok (p :: m) -> assoc m p.1 = 0.
Proof.
  intros Hok. destruct (table_ok_cons _ _ Hok) as ([Hs _] & _ & Hf).
  apply assoc_absent; [by apply table_sorted_strong|]. done.
Qed.

Lemma elem_of_table m k n :
  table_ok m -> (k, n) ∈ m <-> assoc m k = n /\ 0 < n.
Proof.
  induction m as [|[k' n'] m IH]; intros Hok; simpl.
  - split; [by intros ?%elem_of_nil|]. intros [<- ?]. lia.
  - destruct (table_ok_cons _ _ Hok) as (Hm & Hn' & Hf). simpl in Hn'.
    rewrite elem_of_cons, IH by done. case_decide as Hkk; [subst k'|].
    + split; [intros [[= ->]|[Ha Hn]]; [done|]|intros [<- _]; by left].
      rewrite (assoc_absent m k) in Ha; [lia|by apply table_sorted_strong; destruct Hm|].
      eapply Forall_impl; [done|]. by intros q Hq.
    + split; [intros [[= -> ->]|H']; [done|done]|intros; by right].
Qed.

Lemma table_ext m1 m2 :
  table_ok m1 -> table_ok m2 -> (forall k, assoc m1 k = assoc m2 k) -> m1 = m2.
Proof.
  revert m2. induction m1 as [|[k1 n1] m1 IH]; intros [|[k2 n2] m2] Hok1 Hok2 Ha.
  - done.
  - destruct (table_ok_cons _ _ Hok2) as (_ & Hn & _). specialize (Ha k2). simpl in *.
    rewrite decide_True in Ha by done. lia.
  - destruct (table_ok_cons _ _ Hok1) as (_ & Hn & _). specialize (Ha k1). simpl in *.
    rewrite decide_True in Ha by done. lia.
  - destruct (table_ok_cons _ _ Hok1) as (Hm1 & Hn1 & Hf1).
    destruct (table_ok_cons _ _ Hok2) as (Hm2 & Hn2 & Hf2). simpl in Hn1, Hn2.
    destruct (key_ltb k1 k2) eqn:E12.
    { pose proof (assoc_below k1 _ _ Hok2 E12) as H0. rewrite <- Ha in H0. simpl in H0.
      rewrite decide_True in H0 by done. lia. }
    destruct (key_ltb k2 k1) eqn:E21.
    { pose proof (assoc_below k2 _ _ Hok1 E21) as H0. rewrite Ha in H0. simpl in H0.
      rewrite decide_True in H0 by done. lia. }
    assert (k1 = k2) as <- by (by apply key_ltb_total).
    pose proof (Ha k1) as H1. simpl in H1. rewrite !decide_True in H1 by done. subst n2.
    f_equal. apply IH; [done|done|]. intros k. specialize (Ha k). simpl in Ha.
    case_decide; [subst k|done].
    pose proof (assoc_tail_head _ _ Hok1). pose proof (assoc_tail_head _ _ Hok2). simpl in *. lia.
Qed.

Lemma insert_by_key_last p l : Forall (fun q => key_lt q p) l -> insert_by_key p l = l ++ [p].
Proof.
  induction l as [|q l IH]; simpl; intros Hf; [done|]. inversion Hf as [|? ? Hqp Hl]; subst.
  destruct (key_ltb p.1 q.1) eqn:E.
  - unfold key_lt in Hqp. pose proof (key_ltb_trans _ _ _ E Hqp) as Hpp.
    by rewrite key_ltb_irrefl in Hpp.
  - by rewrite IH.
Qed.

Lemma StronglySorted_snoc {A} (R : A -> A -> Prop) l p :
  StronglySorted R (l ++ [p]) -> StronglySorted R l /\ Forall (fun q => R q p) l.
Proof.
  induction l as [|q l IH]; simpl; intros Hs; [split; constructor|].
  inversion Hs as [|? ? Hsl Hf]; subst. destruct (IH Hsl) as [H1 H2].
  apply Forall_app in Hf as [Hf1 Hf2]. inversion Hf2; subst.
  split; constructor; done.
Qed.

(** Sorting an already sorted table changes nothing. *)
Lemma sort_by_key_sorted l : Sorted key_lt l -> sort_by_key l = l.
Proof.
  intros Hs%table_sorted_strong. unfold sort_by_key.
  induction l as [|p l IH] using rev_ind; [done|].
  apply StronglySorted_snoc in Hs as [Hs Hf].
  rewrite foldl_app. simpl. rewrite IH by done. by apply insert_by_key_last.
Qed.

Lemma count_insert_total_filter (P : K -> bool) k m :
  counts_total (List.filter (fun p => P p.1) (count_insert k m)) =
  (if P k then 1 else 0) + counts_total (List.filter (fun p => P p.1) m).
Proof.
  unfold counts_total. induction m as [|[k' n] m IH]; simpl; [by destruct (P k)|].
  destruct (key_ltb k k') eqn:E1; simpl.
  - by destruct (P k), (P k').
  - destruct (key_ltb k' k) eqn:E2; simpl.
    + destruct (P k'); simpl; rewrite IH; lia.
    + assert (k = k') as <- by (by apply key_ltb_total). destruct (P k); simpl; lia.
Qed.

(** The fold invariant of [group_size]. *)
Lemma group_size_inv keys :
  table_ok (group_size keys) /\ (forall j, assoc (group_size keys) j = key_count keys j) /\
  counts_total (group_size keys) = length keys.
Proof.
  unfold group_size. induction keys as [|k keys IH] using rev_ind.
  - split; [split; constructor|]. split; [done|done].
  - rewrite foldl_app. simpl. destruct IH as [[Hs Hp] [Ha Ht]].
    split; [split; [by apply count_insert_sorted | by apply count_insert_pos]|].
    split.
    + intros j. rewrite count_insert_assoc, key_count_snoc, Ha by done. done.
    + rewrite count_insert_total, Ht, length_app. simpl. lia.
Qed.

(** ** Theorems *)

(** C9: [group_size] is the group-size table of pandas: its keys are
    strictly increasing, and a pair [(k, n)] is in it exactly when [k]
    occurs [n > 0] times among the keys. *)
Theorem group_size_spec keys :
  table_ok (group_size keys) /\
  forall k n, (k, n) ∈ group_size keys <-> n = key_count keys k /\ 0 < n.
Proof.
  destruct (group_size_inv keys) as (Hok & Ha & _). split; [done|].
  intros k n. rewrite elem_of_table, Ha by done. split; intros [-> ?]; auto.
Qed.

(** C10: refinement of the abstract count: any strictly sorted table with
    positive counts that gives every key its number of occurrences is
    [group_size keys]; the table is determined by [key_count] alone. *)
Theorem group_size_unique keys m :
  table_ok m -> (forall k, assoc m k = key_count keys k) -> m = group_size keys.
Proof.
  intros Hok Ha. destruct (group_size_inv keys) as (Hok' & Ha' & _).
  apply table_ext; [done|done|]. intros k. by rewrite Ha, Ha'.
Qed.

(** C11: the counts of the group-size table add up to the number of keys
    (every row falls in exactly one group). *)
Theorem group_size_total keys : counts_total (group_size keys) = length keys.
Proof. apply group_size_inv. Qed.

(** The groups whose key satisfies [P] count the keys satisfying [P]. *)
Lemma group_size_total_filter (P : K -> bool) keys :
  counts_total (List.filter (fun p => P p.1) (group_size keys)) = length (List.filter P keys).
Proof.
  unfold group_size. induction keys as [|k keys IH] using rev_ind; [done|].
  rewrite foldl_app. simpl. rewrite count_insert_total_filter, IH, List.filter_app, length_app.
  simpl. destruct (P k); simpl; lia.
Qed.

End GroupBy.

(** ** Witnesses *)

Example group_size_years :
  group_size [2005; 2000; 2005; 1999]%Z = [(1999%Z, 1); (2000%Z, 1); (2005%Z, 2)].
Proof. reflexivity. Qed.

Lemma group_size_unique_witness :
  [(2000%Z, 2); (2005%Z, 1)] = group_size [2000; 2005; 2000]%Z.
Proof.
  apply group_size_unique.
  - split; [repeat constructor|repeat constructor; simpl; lia].
  - intros k. unfold key_count; cbn.
    destruct (decide (k = 2000%Z)) as [->|H1]; [reflexivity|].
    destruct (decide (k = 2005%Z)) as [->|H2]; [reflexivity|].
    repeat first [rewrite decide_False by congruence | rewrite bool_decide_eq_false_2 by congruence].
    reflexivity.
Defined.

End GroupBy.
