(* ===== verification/ValueCounts.v ===== *)
(** pandas' [Series.value_counts()] and [DataFrame.head(n)] as chart 2 of
    [update] uses them (src/dashboard.py, lines 105-106): the missing
    values are dropped ([dropna=True]), the distinct values are counted in
    the order of their first occurrence, and the table is sorted by count,
    largest first.  pandas does not document the order of equal counts;
    the model sorts stably, so equal counts keep first-occurrence order
    (recorded as a spec gap in the manifest).  [head(15)] keeps the first
    15 entries. *)

From S2P Require Import Prelude GroupBy.
From Stdlib Require Import Sorted.
Import GroupBy.

Module ValueCounts.

Section ValueCounts.
Context `{EqDecision K}.

(** ** Definitions *)

(** Count one more occurrence of [k], appending a new value at the end. *)
Fixpoint occ_insert (k : K) (m : list (K * nat)) : list (K * nat) :=
  match m with
  | [] => [(k, 1)]
  | (k', n) :: m' => if decide (k = k') then (k', S n) :: m' else (k', n) :: occ_insert k m'
  end.

(** Counts in the order of first occurrence. *)
Definition occurrence_counts (keys : list K) : list (K * nat) :=
  foldl (fun m k => occ_insert k m) [] keys.

(** Insert after every entry whose count is at least as large. *)
Fixpoint insert_desc (p : K * nat) (l : list (K * nat)) : list (K * nat) :=
  match l with
  | [] => [p]
  | q :: l' => if p.2 <=? q.2 then q :: insert_desc p l' else p :: l
  end.

(** Stable sort by decreasing count. *)
Definition sort_desc (l : list (K * nat)) : list (K * nat) :=
  foldl (fun acc p => insert_desc p acc) [] l.

(** [series.value_counts()] on a column with missing values. *)
Definition value_counts (vals : list (option K)) : list (K * nat) :=
  sort_desc (occurrence_counts (omap id vals)).

(** [df.head(n)]. *)
Definition head {A} (n : nat) (l : list A) : list A := take n l.

Definition count_ge (p q : K * nat) : Prop := q.2 <= p.2.

(** ** Lemmas *)


Lemma occ_insert_assoc k m j :
  assoc (occ_insert k m) j = assoc m j + (if decide (j = k) then 1 else 0).
Proof.
  induction m as [|[k' n] m IH]; simpl; [repeat case_decide; lia|].
  repeat (case_decide; subst; cbn [assoc]; rewrite ?IH); try congruence; lia.
Qed.

Lemma occ_insert_keys k m :
  map fst (occ_insert k m) = if decide (k ∈ map fst m) then map fst m else map fst m ++ [k].
Proof.
  induction m as [|[k' n] m IH]; simpl; [done|].
  destruct (decide (k = k')) as [->|Hne]; simpl.
  - rewrite decide_True by set_solver. done.
  - rewrite IH. destruct (decide (k ∈ map fst m)).
    + rewrite decide_True by set_solver. done.
    + rewrite decide_False by set_solver. done.
Qed.

Lemma occ_insert_nodup k m : NoDup (map fst m) -> NoDup (map fst (occ_insert k m)).
Proof.
  intros Hnd. rewrite occ_insert_keys. case_decide; [done|].
  apply NoDup_app. split; [done|]. split; [set_solver|]. apply NoDup_singleton.
Qed.

Lemma occ_insert_pos k m :
  Forall (fun p => 0 < p.2) m -> Forall (fun p => 0 < p.2) (occ_insert k m).
Proof.
  induction m as [|[k' n] m IH]; simpl; intros Hf; [repeat constructor; simpl; lia|].
  inversion Hf; subst. case_decide; constructor; simpl in *; auto; lia.
Qed.

Lemma occ_insert_total k m : counts_total (occ_insert k m) = S (counts_total m).
Proof.
  unfold counts_total. induction m as [|[k' n] m IH]; simpl; [done|].
  case_decide; simpl; lia.
Qed.

Lemma occurrence_counts_inv keys :
  let m := occurrence_counts keys in
  NoDup (map fst m) /\ Forall (fun p => 0 < p.2) m /\
  (forall j, assoc m j = key_count keys j) /\ counts_total m = length keys.
Proof.
  unfold occurrence_counts. induction keys as [|k keys IH] using rev_ind; simpl.
  - split; [constructor|]. split; [constructor|]. done.
  - rewrite foldl_app. simpl. destruct IH as (Hnd & Hp & Ha & Ht).
    split; [by apply occ_insert_nodup|]. split; [by apply occ_insert_pos|]. split.
    + intros j. by rewrite occ_insert_assoc, key_count_snoc, Ha.
    + rewrite occ_insert_total, Ht, length_app. simpl. lia.
Qed.

(** In a table with distinct keys and positive counts, membership is the
    lookup. *)
Lemma elem_of_nodup_table (m : list (K * nat)) k n :
  NoDup (map fst m) -> Forall (fun p => 0 < p.2) m ->
  (k, n) ∈ m <-> assoc m k = n /\ 0 < n.
Proof.
  induction m as [|[k' n'] m IH]; simpl; intros Hnd Hp.
  - split; [by intros ?%elem_of_nil|]. intros [<- ?]. lia.
  - apply NoDup_cons in Hnd as [Hnin Hnd]. inversion Hp; subst. simpl in *.
    rewrite elem_of_cons, IH by done. case_decide as Hkk; [subst k'|].
    + split; [intros [[= ->]|[Ha Hn]]; [done|]|intros [<- _]; by left].
      destruct (assoc m k) eqn:E; [lia|].
      exfalso. apply Hnin. assert ((k, n) ∈ m) as Hin by (apply IH; auto).
      by apply (list_elem_of_fmap_2 fst m (k, n)).
    + split; [intros [[= -> ->]|H']; [done|done]|intros; by right].
Qed.

Lemma insert_desc_perm p l : insert_desc p l ≡ₚ p :: l.
Proof.
  induction l as [|q l IH]; simpl; [done|].
  destruct (p.2 <=? q.2); [|done]. rewrite IH. apply Permutation_swap.
Qed.

Lemma sort_desc_perm l : sort_desc l ≡ₚ l.
Proof.
  unfold sort_desc. induction l as [|p l IH] using rev_ind; [done|].
  rewrite foldl_app. simpl. rewrite insert_desc_perm, IH. by rewrite Permutation_app_comm.
Qed.

Lemma insert_desc_sorted p l : Sorted count_ge l -> Sorted count_ge (insert_desc p l).
Proof.
  induction l as [|q l IH]; simpl; intros Hs; [repeat constructor|].
  inversion Hs as [|? ? Hsl Hhd]; subst.
  destruct (Nat.leb_spec p.2 q.2).
  - constructor; [by apply IH|].
    destruct l as [|r l]; simpl; [constructor; unfold count_ge; lia|].
    inversion Hhd; subst. destruct (p.2 <=? r.2); constructor; unfold count_ge in *; lia.
  - constructor; [done|]. constructor. unfold count_ge. lia.
Qed.

Lemma sort_desc_sorted l : Sorted count_ge (sort_desc l).
Proof.
  unfold sort_desc. induction l as [|p l IH] using rev_ind; [constructor|].
  rewrite foldl_app. simpl. by apply insert_desc_sorted.
Qed.

Lemma count_ge_trans : Relations_1.Transitive count_ge.
Proof. intros p q r. unfold count_ge. lia. Qed.

Lemma StronglySorted_take_drop {A} (R : A -> A -> Prop) (l : list A) n x y :
  StronglySorted R l -> x ∈ take n l -> y ∈ drop n l -> R x y.
Proof.
  revert n. induction l as [|a l IH]; intros n Hs Hx Hy; [rewrite take_nil in Hx; by apply elem_of_nil in Hx|].
  inversion Hs as [|? ? Hsl Hf]; subst. destruct n as [|n]; simpl in *.
  - by apply elem_of_nil in Hx.
  - apply elem_of_cons in Hx as [->|Hx].
    + rewrite Forall_forall in Hf. apply Hf. by eapply sublist_subseteq; [apply sublist_drop|].
    + by eapply IH.
Qed.

Lemma counts_total_head n (l : list (K * nat)) : counts_total (head n l) <= counts_total l.
Proof.
  unfold head, counts_total. revert n.
  induction l as [|p l IH]; intros [|n]; cbn; try lia. specialize (IH n). lia.
Qed.

Lemma elem_of_value_counts vals k n :
  (k, n) ∈ value_counts vals <-> n = key_count (omap id vals) k /\ 0 < n.
Proof.
  unfold value_counts. destruct (occurrence_counts_inv (omap id vals)) as (Hnd & Hp & Ha & _).
  rewrite sort_desc_perm, elem_of_nodup_table, Ha by done. split; intros [-> ?]; auto.
Qed.

Lemma value_counts_counts_total vals : counts_total (value_counts vals) = length (omap id vals).
Proof.
  unfold value_counts, counts_total. rewrite sort_desc_perm. apply occurrence_counts_inv.
Qed.

Lemma value_counts_strongly_sorted vals : StronglySorted count_ge (value_counts vals).
Proof. apply Sorted_StronglySorted; [apply count_ge_trans|]. apply sort_desc_sorted. Qed.

(** ** Theorems *)

(** C12: [value_counts] counts the non-missing values: it is sorted by
    decreasing count, each value appears once, and [(k, n)] is in it
    exactly when [k] occurs [n > 0] times among the non-missing values. *)
Theorem value_counts_spec vals :
  Sorted count_ge (value_counts vals) /\ NoDup (map fst (value_counts vals)) /\
  forall k n, (k, n) ∈ value_counts vals <-> n = key_count (omap id vals) k /\ 0 < n.
Proof.
  split; [apply sort_desc_sorted|]. split; [|apply elem_of_value_counts].
  unfold value_counts. rewrite sort_desc_perm. apply occurrence_counts_inv.
Qed.

(** C13: the counts of [value_counts] add up to the number of non-missing
    values, which is at most the number of values. *)
Theorem value_counts_total vals :
  counts_total (value_counts vals) = length (omap id vals) /\
  length (omap id vals) <= length vals.
Proof.
  split; [apply value_counts_counts_total|].
  induction vals as [|[v|] vals IH]; cbn in *; lia.
Qed.

(** C14: [head(n)] of the value counts keeps the most frequent values: no
    entry left out has a larger count than an entry kept. *)
Theorem value_counts_head_top vals n p q :
  p ∈ head n (value_counts vals) -> q ∈ drop n (value_counts vals) -> q.2 <= p.2.
Proof.
  intros Hp Hq. apply (StronglySorted_take_drop count_ge (value_counts vals) n p q); try done.
  apply value_counts_strongly_sorted.
Qed.

End ValueCounts.

(** ** Witnesses *)

Example value_counts_sample :
  value_counts [Some "USA"; None; Some "Russia"; Some "Russia"; Some "China"; Some "USA"; Some "Russia"]
  = [("Russia", 3); ("USA", 2); ("China", 1)].
Proof. reflexivity. Qed.

Lemma value_counts_head_top_witness :
  ("China", 1) ∈ drop 2 (value_counts [Some "USA"; Some "Russia"; Some "Russia"; Some "China"]) /\
  snd ("China", 1) <= snd ("Russia", 2).
Proof.
  split; [vm_compute; set_solver|].
  apply (value_counts_head_top [Some "USA"; Some "Russia"; Some "Russia"; Some "China"] 2);
    vm_compute; set_solver.
Defined.

End ValueCounts.
