(* ===== verification/Kpi.v ===== *)
(** The four KPIs of [update] (src/dashboard.py, lines 82-92) over the
    filtered table: launches ([dff.shape[0]]), successes (rows whose
    [Status_Mission] is exactly ["Success"]), the success-rate text of
    [Format], and active rockets (rows whose [Status_Rocket], printed with
    [astype(str)] and lower-cased, is ["active"]).  A missing optional
    column gives 0.  [make_kpi_card] is modelled by its content (title and
    value); its CSS is not. *)

From S2P Require Import Prelude PyStr Format Frame.
Import PyStr Format Frame.

Module Kpi.

(** A card shows an integer or a text. *)
Inductive kpi_value :=
| KInt (n : nat)
| KText (s : string).

Record kpi_card := mkCard { card_title : string; card_value : kpi_value }.

#[export] Instance kpi_value_eq_dec : EqDecision kpi_value.
Proof. solve_decision. Defined.
#[export] Instance kpi_card_eq_dec : EqDecision kpi_card.
Proof. solve_decision. Defined.

(** [make_kpi_card(title, value)] without its style dictionaries. *)
Definition make_kpi_card (title : string) (value : kpi_value) : kpi_card :=
  mkCard title value.

(** Line 82. *)
Definition total_launches (dff : Table) : nat := shape0 dff.

(** [dff['Status_Mission']=='Success'] at one row: [NaN] compares false. *)
Definition is_success (r : Row) : bool := bool_decide (Status_Mission r = Some "Success").

(** [dff['Status_Rocket'].astype(str).str.lower()=='active'] at one row. *)
Definition is_active (r : Row) : bool :=
  bool_decide (py_lower (py_astype_str (Status_Rocket r)) = "active").

(** Line 83. *)
Definition succ (dff : Table) : nat :=
  if has_column dff "Status_Mission" then mask_sum (map is_success (rows dff)) else 0.

(** Line 85. *)
Definition active (dff : Table) : nat :=
  if has_column dff "Status_Rocket" then mask_sum (map is_active (rows dff)) else 0.

(** Lines 87-92 (with line 84 for the rate). *)
Definition kpis (dff : Table) : list kpi_card :=
  let total := total_launches dff in
  let s := succ dff in
  [ make_kpi_card "Total launches" (KInt total);
    make_kpi_card "Total successes" (KInt s);
    make_kpi_card "Success rate" (KText (success_rate s total));
    make_kpi_card "Active rockets" (KInt (active dff)) ].

(** ** Theorems *)


(** C16: a table without a [Status_Mission] (resp. [Status_Rocket])
    column gives 0 successes (resp. active rockets), as the spec's
    degraded mode says. *)
Theorem kpi_missing_columns dff :
  (has_column dff "Status_Mission" = false -> succ dff = 0) /\
  (has_column dff "Status_Rocket" = false -> active dff = 0).
Proof. unfold succ, active. split; intros ->; done. Qed.

(** The success count is case-sensitive while the active count is
    not: a row whose mission status is "success" is not a success, a row
    whose rocket status is "ACTIVE" is active. *)
Lemma kpi_case_handling y c co :
  is_success (mkRow y c co (Some "success") None) = false /\
  is_active (mkRow y c co None (Some "ACTIVE")) = true.
Proof. split; reflexivity. Qed.

(** ** Witnesses *)

Lemma kpi_missing_columns_witness :
  succ (mkTable ["Year"; "Country"; "Company_Name"]
          [mkRow 2000 None None (Some "Success") None]) = 0.
Proof. apply kpi_missing_columns. reflexivity. Defined.

Example kpis_sample :
  kpis (mkTable ["Year"; "Status_Mission"; "Status_Rocket"]
          [mkRow 2000 None None (Some "Success") (Some "StatusActive");
           mkRow 2001 None None (Some "Failure") (Some "Active");
           mkRow 2002 None None None None])
  = [make_kpi_card "Total launches" (KInt 3); make_kpi_card "Total successes" (KInt 1);
     make_kpi_card "Success rate" (KText "33.33%"); make_kpi_card "Active rockets" (KInt 1)].
Proof. reflexivity. Qed.

End Kpi.
