(* ===== verification/Charts.v ===== *)
(** The three chart datasets and figures of [update] (src/dashboard.py,
    lines 94-114): launches per year (a line chart of
    [groupby('Year').size().sort_values('Year')]), the top 15 countries (a
    bar chart of [value_counts().head(15)]), and mission outcomes per year
    (a stacked bar chart of [groupby(['Year','Status_Mission']).size()],
    or a placeholder when no mission status is known), and the empty-data
    placeholder.  A figure is modelled by its kind, title, data and the
    layout options the code sets; Plotly's rendering is not modelled. *)

From S2P Require Import Prelude Frame GroupBy ValueCounts.
Import Frame GroupBy ValueCounts.

Module Charts.

(** The figures [px.scatter], [px.line], [px.bar] produce here. *)
Inductive Figure :=
| Scatter (title : string) (axes_visible : bool)
| LineChart (title : string) (points : list (Z * nat)) (markers rangeslider : bool)
| BarChart (title : string) (bars : list (string * nat)) (tickangle : Z)
| StackedBar (title : string) (bars : list ((Z * string) * nat)).

#[export] Instance Figure_eq_dec : EqDecision Figure.
Proof. solve_decision. Defined.

(** Lines 96-97: a scatter with both axes hidden. *)
Definition empty_fig : Figure := Scatter "No data for selected filters" false.

(** Line 100. *)
Definition launches_per_year (dff : Table) : list (Z * nat) :=
  sort_by_key (group_size (map Year (rows dff))).

(** Lines 101-102. *)
Definition fig1 (dff : Table) : Figure :=
  LineChart "Number of Space Launches Per Year" (launches_per_year dff) true true.

(** Line 105: [dff['Country'].value_counts()]. *)
Definition country_counts (dff : Table) : list (string * nat) :=
  value_counts (map Country (rows dff)).

(** Lines 106-107. *)
Definition fig2 (dff : Table) : Figure :=
  BarChart "Top Countries by Launches" (head 15 (country_counts dff)) (-45).

(** Line 111: rows with a missing status are dropped by the group-by. *)
Definition outcomes (dff : Table) : list ((Z * string) * nat) :=
  group_size (omap (fun r => (fun s => (Year r, s)) <$> Status_Mission r) (rows dff)).

(** Line 110: the column exists and some status is known. *)
Definition has_outcomes (dff : Table) : bool :=
  has_column dff "Status_Mission" && existsb (fun r => bool_decide (is_Some (Status_Mission r))) (rows dff).

(** Lines 110-114. *)
Definition fig3 (dff : Table) : Figure :=
  if has_outcomes dff then StackedBar "Mission Outcomes Over Time" (outcomes dff)
  else Scatter "Mission outcome data unavailable" true.

(** ** Lemmas *)

Lemma launches_per_year_group dff : launches_per_year dff = group_size (map Year (rows dff)).
Proof. unfold launches_per_year. apply sort_by_key_sorted, (group_size_inv _). Qed.

Lemma omap_length_filter {A B} (f : A -> option B) (l : list A) :
  length (omap f l) = length (List.filter (fun x => bool_decide (is_Some (f x))) l).
Proof.
  induction l as [|x l IH]; cbn; [done|].
  destruct (f x); cbn; lia.
Qed.

Lemma List_filter_map_length {A B} (f : B -> bool) (g : A -> B) (l : list A) :
  length (List.filter f (map g l)) = length (List.filter (fun x => f (g x)) l).
Proof. induction l as [|x l IH]; cbn; [done|]. destruct (f (g x)); cbn; lia. Qed.

Lemma launches_per_year_total dff : counts_total (launches_per_year dff) = shape0 dff.
Proof.
  rewrite launches_per_year_group. destruct (group_size_inv (map Year (rows dff))) as (_ & _ & ->).
  apply length_map.
Qed.

Lemma country_counts_total dff :
  counts_total (country_counts dff) =
  length (List.filter (fun r => bool_decide (is_Some (Country r))) (rows dff)).
Proof.
  unfold country_counts. rewrite value_counts_counts_total.
  rewrite (omap_length_filter id (map Country (rows dff))). by rewrite List_filter_map_length.
Qed.

(** ** Theorems *)

(** C17: the launches-per-year series has strictly increasing years, each
    year of the filtered table once with its number of launches, and its
    counts add up to the number of filtered rows (the final
    [sort_values('Year')] leaves the group-by's order unchanged). *)
Theorem launches_per_year_spec dff :
  table_ok (launches_per_year dff) /\
  (forall y n, (y, n) ∈ launches_per_year dff <-> n = key_count (map Year (rows dff)) y /\ 0 < n) /\
  counts_total (launches_per_year dff) = shape0 dff.
Proof.
  split; [|split; [|apply launches_per_year_total]];
    rewrite launches_per_year_group; destruct (group_size_inv (map Year (rows dff))) as (Hok & Ha & _);
    [done|]. intros y n. rewrite elem_of_table, Ha by done. split; intros [-> ?]; auto.
Qed.

(** C18: the outcome bars count the rows by (year, status): a pair is
    shown with count [n] exactly when [n > 0] filtered rows have that year
    and status, and the bars add up to the rows whose status is known. *)
Theorem outcomes_spec dff :
  table_ok (outcomes dff) /\
  (forall y s n, ((y, s), n) ∈ outcomes dff <->
     n = length (List.filter (fun r => bool_decide (Year r = y /\ Status_Mission r = Some s)) (rows dff))
     /\ 0 < n) /\
  counts_total (outcomes dff) =
    length (List.filter (fun r => bool_decide (is_Some (Status_Mission r))) (rows dff)).
Proof.
  unfold outcomes.
  destruct (group_size_inv (omap (fun r => (fun s => (Year r, s)) <$> Status_Mission r) (rows dff)))
    as (Hok & Ha & Ht).
  split; [done|]. split.
  - intros y s n. rewrite elem_of_table, Ha by done.
    cut (n = key_count (omap (fun r => (fun s0 => (Year r, s0)) <$> Status_Mission r) (rows dff)) (y, s) /\ 0 < n <->
         n = length (List.filter (fun r => bool_decide (Year r = y /\ Status_Mission r = Some s)) (rows dff)) /\ 0 < n).
    { intros Hcut. rewrite <- Hcut. split; intros [-> ?]; auto. }
    unfold key_count. f_equal.
    assert (Hc : forall l : list Row,
      length (List.filter (fun x => bool_decide (x = (y, s)))
                (omap (fun r => (fun s0 => (Year r, s0)) <$> Status_Mission r) l))
      = length (List.filter (fun r => bool_decide (Year r = y /\ Status_Mission r = Some s)) l)).
    { induction l as [|r l IH]; cbn; [done|].
      destruct (Status_Mission r) as [s'|]; cbn.
      - repeat case_bool_decide; cbn; try naive_solver lia.
      - case_bool_decide; [naive_solver|done]. }
    by rewrite Hc.
  - rewrite Ht, omap_length_filter. f_equal.
    apply List_filter_ext_in. intros r _. by destruct (Status_Mission r).
Qed.

(** C19: the country bars count each known country once with its number
    of filtered rows, sorted by decreasing count; all bars together count
    the rows with a known country, which can be fewer than the filtered
    rows (rows with a missing country are not charted), and the 15 bars
    shown are at least as tall as every bar left out. *)
Theorem country_counts_spec dff :
  (forall c n, (c, n) ∈ country_counts dff <->
     n = length (List.filter (fun r => bool_decide (Country r = Some c)) (rows dff)) /\ 0 < n) /\
  counts_total (country_counts dff) =
    length (List.filter (fun r => bool_decide (is_Some (Country r))) (rows dff)) /\
  (forall p q, p ∈ head 15 (country_counts dff) -> q ∈ drop 15 (country_counts dff) -> q.2 <= p.2).
Proof.
  split; [|split; [apply country_counts_total|]].
  - intros c n. unfold country_counts. rewrite elem_of_value_counts. unfold key_count. f_equal.
    assert (Hc : forall l : list Row,
      length (List.filter (fun x => bool_decide (x = c)) (omap id (map Country l)))
      = length (List.filter (fun r => bool_decide (Country r = Some c)) l)).
    { induction l as [|r l IH]; cbn; [done|].
      destruct (Country r) as [c'|]; cbn; repeat case_bool_decide; cbn; naive_solver lia. }
    by rewrite Hc.
  - intros p q Hp Hq. apply (StronglySorted_take_drop count_ge (country_counts dff) 15 p q); try done.
    apply value_counts_strongly_sorted.
Qed.

End Charts.
