(* ===== verification/Dashboard.v ===== *)
(** The callback [update] (src/dashboard.py, lines 68-116) composed from
    the components: [filter_df], the KPI cards, and either the three
    placeholder figures (when the filtered table is empty) or the three
    charts, with the debug line [f"Filtered rows: {n}"].  Its theorems
    relate the outputs to each other: the line chart and the KPI count the
    same rows, the outcome chart's successes are the success KPI, the
    country chart leaves out rows with no country. *)

From S2P Require Import Prelude PyStr Format Frame Filter Kpi GroupBy ValueCounts Charts.
Import PyStr Format Frame Filter Kpi GroupBy ValueCounts Charts.

Module Dashboard.

(** The five outputs of the callback (lines 69-73). *)
Record Output := mkOutput {
  kpi_row : list kpi_card;
  launches_time : Figure;
  top_countries : Figure;
  missions_outcomes : Figure;
  debug : string
}.

(** [update(selected_countries, selected_companies, year_range)]. *)
Definition update (df : Table) (selected_countries selected_companies : option (list string))
    (year_range : list Z) : result Output :=
  let? dff := filter_df df selected_countries selected_companies year_range in
  let cards := kpis dff in
  if empty dff then Ok (mkOutput cards empty_fig empty_fig empty_fig "Filtered rows: 0")
  else Ok (mkOutput cards (fig1 dff) (fig2 dff) (fig3 dff)
             ("Filtered rows: " ++ py_str_nat (shape0 dff))%string).

(** An outcome bar whose status is "Success". *)
Definition success_key (k : Z * string) : bool := bool_decide (k.2 = "Success").

(** ** Lemmas *)

Lemma update_filter df sc sco yr o :
  update df sc sco yr = Ok o ->
  exists dff, filter_df df sc sco yr = Ok dff /\ kpi_row o = kpis dff /\
    (empty dff = true -> o = mkOutput (kpis dff) empty_fig empty_fig empty_fig "Filtered rows: 0") /\
    (empty dff = false -> o = mkOutput (kpis dff) (fig1 dff) (fig2 dff) (fig3 dff)
                               ("Filtered rows: " ++ py_str_nat (shape0 dff))%string).
Proof.
  intros Hu. unfold update in Hu.
  destruct (filter_df df sc sco yr) as [dff|e]; simpl in Hu; [|discriminate].
  exists dff. destruct (empty dff); injection Hu as <-; naive_solver.
Qed.

Lemma empty_false_rows dff : empty dff = false -> rows dff <> [].
Proof. unfold empty. by destruct (rows dff). Qed.

Lemma succ_outcomes dff :
  has_column dff "Status_Mission" = true ->
  counts_total (List.filter (fun p => success_key p.1) (outcomes dff)) = succ dff.
Proof.
  intros Hc. unfold outcomes, succ. rewrite Hc.
  rewrite group_size_total_filter, mask_sum_map. unfold success_key.
  induction (rows dff) as [|r l IH]; cbn; [done|].
  unfold is_success at 1. destruct (Status_Mission r) as [s|]; cbn; [|done].
  case_bool_decide as Hs; [subst; rewrite bool_decide_eq_true_2 by done; cbn; lia|].
  rewrite bool_decide_eq_false_2 by congruence. done.
Qed.

(** A well-formed table has a [Year] column, so a filtered table with a
    row is not empty. *)
Lemma nonempty_filtered df sc sco yr dff :
  table_wf df -> filter_df df sc sco yr = Ok dff -> rows dff <> [] -> empty dff = false.
Proof.
  intros [Hy _] Hf Hrows. destruct yr as [|lo [|hi rest]]; [discriminate|discriminate|].
  rewrite filter_df_unfold in Hf. injection Hf as <-.
  unfold empty. destruct (rows _); [done|]. simpl. by destruct (columns df); [set_solver|].
Qed.

#[export] Instance update_proper : Proper (eq ==> sel_equiv ==> sel_equiv ==> eq ==> eq) update.
Proof. intros df ? <- a b Hab c d Hcd yr ? <-. unfold update. by rewrite Hab, Hcd. Qed.

(** ** Theorems *)

(** C20: a slider value with fewer than two entries makes the callback
    raise IndexError; nothing is displayed. *)
Theorem update_short_range df sc sco yr :
  length yr < 2 -> update df sc sco yr = Err (IndexError "list index out of range").
Proof. unfold update. destruct yr as [|lo [|hi rest]]; simpl; [done|done|lia]. Qed.

(** C21: when no row passes the filters, the callback shows the KPIs
    0 launches, 0 successes, "N/A", its active-rocket count (0 when the
    table has no row), the same "No data" placeholder in all three chart
    panels, and the debug line "Filtered rows: 0". *)
Theorem update_empty df sc sco lo hi rest :
  List.filter (row_selected sc sco lo hi) (rows df) = [] ->
  update df sc sco (lo :: hi :: rest) =
  Ok (mkOutput
        [make_kpi_card "Total launches" (KInt 0); make_kpi_card "Total successes" (KInt 0);
         make_kpi_card "Success rate" (KText "N/A"); make_kpi_card "Active rockets" (KInt 0)]
        empty_fig empty_fig empty_fig "Filtered rows: 0").
Proof.
  intros Hnil. unfold update. rewrite filter_df_unfold. simpl.
  unfold kpis, succ, active, total_launches, shape0, empty; simpl. rewrite Hnil.
  by destruct (has_column _ _), (has_column _ _).
Qed.

(** C22: for a well-formed table, when some row passes the filters, the
    launches line chart and the "Total launches" KPI count the same rows:
    the yearly counts add up to the KPI, and the debug line prints that
    number, which reads back as it. *)
Theorem update_launches_consistent df sc sco yr o :
  table_wf df -> update df sc sco yr = Ok o ->
  exists dff, filter_df df sc sco yr = Ok dff /\ kpi_row o = kpis dff /\
    (rows dff <> [] ->
     (exists pts, launches_time o = LineChart "Number of Space Launches Per Year" pts true true /\
                  counts_total pts = total_launches dff) /\
     debug o = ("Filtered rows: " ++ py_str_nat (total_launches dff))%string /\
     py_int_of_str (py_str_nat (total_launches dff)) = Some (Z.of_nat (total_launches dff))).
Proof.
  intros Hwf Hu. destruct (update_filter _ _ _ _ _ Hu) as (dff & Hf & Hk & _ & Hne).
  exists dff. split; [done|]. split; [done|]. intros Hrows.
  rewrite (Hne (nonempty_filtered _ _ _ _ _ Hwf Hf Hrows)). simpl.
  split; [eexists; split; [reflexivity|]; apply launches_per_year_total|].
  split; [done|]. apply py_int_of_str_py_str_Z.
Qed.

(** C23: the successes shown in the outcome chart are the success KPI:
    when chart 3 is the stacked bar chart, its bars with status
    "Success" add up to the "Total successes" card. *)
Theorem update_outcomes_success df sc sco yr o t bars :
  table_wf df -> update df sc sco yr = Ok o ->
  missions_outcomes o = StackedBar t bars ->
  exists dff, filter_df df sc sco yr = Ok dff /\
    kpi_row o !! 1 = Some (make_kpi_card "Total successes" (KInt (succ dff))) /\
    counts_total (List.filter (fun p => success_key p.1) bars) = succ dff.
Proof.
  intros Hwf Hu Hfig. destruct (update_filter _ _ _ _ _ Hu) as (dff & Hf & Hk & He & Hne).
  exists dff. split; [done|]. split; [by rewrite Hk|].
  destruct (empty dff) eqn:Ee; [by rewrite (He eq_refl) in Hfig|].
  rewrite (Hne eq_refl) in Hfig. simpl in Hfig. unfold fig3 in Hfig.
  destruct (has_outcomes dff) eqn:Ho; [|discriminate]. injection Hfig as _ <-.
  apply succ_outcomes. unfold has_outcomes in Ho. by apply andb_true_iff in Ho as [? _].
Qed.

(** C24: the country chart shows at most the rows that have a country,
    hence at most the "Total launches" KPI; rows with a missing country
    are in the KPI but in no bar. *)
Theorem update_country_bars df sc sco yr o t bars a :
  update df sc sco yr = Ok o -> top_countries o = BarChart t bars a ->
  exists dff, filter_df df sc sco yr = Ok dff /\
    counts_total bars <= length (List.filter (fun r => bool_decide (is_Some (Country r))) (rows dff)) /\
    length (List.filter (fun r => bool_decide (is_Some (Country r))) (rows dff)) <= total_launches dff.
Proof.
  intros Hu Hfig. destruct (update_filter _ _ _ _ _ Hu) as (dff & Hf & _ & He & Hne).
  exists dff. split; [done|].
  destruct (empty dff) eqn:Ee; [by rewrite (He eq_refl) in Hfig|].
  rewrite (Hne eq_refl) in Hfig. cbn [top_countries] in Hfig. unfold fig2 in Hfig.
  assert (bars = head 15 (country_counts dff)) as -> by congruence.
  split; [|unfold total_launches, shape0; apply filter_length_le].
  rewrite <- country_counts_total. apply counts_total_head.
Qed.

(** C38: the page depends on the dropdown values only through the set of
    values selected: two country selections (and two company selections)
    with the same elements, in any order and with any repetitions, give
    the same outputs, and an empty selection acts as no selection. *)
Theorem update_selection_sets df sc1 sc2 sco1 sco2 yr :
  sel_equiv sc1 sc2 -> sel_equiv sco1 sco2 -> update df sc1 sco1 yr = update df sc2 sco2 yr.
Proof. intros Hc Hco. by rewrite Hc, Hco. Qed.

(** ** Witnesses *)

Lemma update_short_range_witness :
  update sample None None [2000%Z] = Err (IndexError "list index out of range").
Proof. apply update_short_range. simpl. lia. Defined.

Lemma update_empty_witness :
  update sample (Some ["USA"]) None [2001; 2010]%Z =
  Ok (mkOutput
        [make_kpi_card "Total launches" (KInt 0); make_kpi_card "Total successes" (KInt 0);
         make_kpi_card "Success rate" (KText "N/A"); make_kpi_card "Active rockets" (KInt 0)]
        empty_fig empty_fig empty_fig "Filtered rows: 0").
Proof. apply update_empty. vm_compute. reflexivity. Defined.

Lemma update_launches_consistent_witness :
  exists o, update sample None None [1990; 2010]%Z = Ok o /\
  exists dff, filter_df sample None None [1990; 2010]%Z = Ok dff /\ kpi_row o = kpis dff /\
    (rows dff <> [] ->
     (exists pts, launches_time o = LineChart "Number of Space Launches Per Year" pts true true /\
                  counts_total pts = total_launches dff) /\
     debug o = ("Filtered rows: " ++ py_str_nat (total_launches dff))%string /\
     py_int_of_str (py_str_nat (total_launches dff)) = Some (Z.of_nat (total_launches dff))).
Proof.
  eexists. split; [vm_compute; reflexivity|].
  apply update_launches_consistent; [apply sample_wf|vm_compute; reflexivity].
Defined.

Lemma update_outcomes_success_witness :
  exists o t bars, update sample None None [1990; 2010]%Z = Ok o /\
    missions_outcomes o = StackedBar t bars /\
  exists dff, filter_df sample None None [1990; 2010]%Z = Ok dff /\
    kpi_row o !! 1 = Some (make_kpi_card "Total successes" (KInt (succ dff))) /\
    counts_total (List.filter (fun p => success_key p.1) bars) = succ dff.
Proof.
  do 3 eexists. split; [vm_compute; reflexivity|]. split; [vm_compute; reflexivity|].
  eapply update_outcomes_success; [apply sample_wf|vm_compute; reflexivity|vm_compute; reflexivity].
Defined.

(** The country bars of the sample count 2 rows while 3 rows are selected:
    the row without a country is charted nowhere. *)
Lemma update_country_bars_witness :
  exists o t bars a, update sample None None [1990; 2010]%Z = Ok o /\
    top_countries o = BarChart t bars a /\ counts_total bars = 2 /\
    kpi_row o !! 0 = Some (make_kpi_card "Total launches" (KInt 3)) /\
  exists dff, filter_df sample None None [1990; 2010]%Z = Ok dff /\
    counts_total bars <= length (List.filter (fun r => bool_decide (is_Some (Country r))) (rows dff)) /\
    length (List.filter (fun r => bool_decide (is_Some (Country r))) (rows dff)) <= total_launches dff.
Proof.
  do 4 eexists. split; [vm_compute; reflexivity|]. split; [vm_compute; reflexivity|].
  split; [vm_compute; reflexivity|]. split; [vm_compute; reflexivity|].
  eapply update_country_bars; vm_compute; reflexivity.
Defined.

Lemma update_selection_sets_witness :
  update sample (Some ["USA"; "Russia"]) (Some []) [1990; 2010]%Z =
  update sample (Some ["Russia"; "USA"; "USA"]) None [1990; 2010]%Z.
Proof. apply update_selection_sets; intros s; simpl; set_solver. Defined.

End Dashboard.
