(* ===== verification/Options.v ===== *)
(** The dropdown options and the year slider (src/dashboard.py, lines
    13-15 and 26-58): [sorted(df[c].dropna().unique())] for the country
    and company dropdowns, [int(df['Year'].min())] and [max()] for the
    slider bounds (ValueError on an empty table, where the minimum is
    [NaN]), the slider marks [range(min_year, max_year+1, 5)], and the
    layout record these values fill.

    [py_unique] is pandas' [unique] (first occurrences, in order) and
    [py_sorted] Python's stable [sorted] (an insertion sort under the
    [KeyOrder] of the keys, a new element going after the equal ones).
    The theorems show that the options are the group keys of
    [GroupBy.group_size] (sorted, each present value once), that the
    bounds are the least and greatest year, and what the marks are. *)

From S2P Require Import Prelude PyStr Frame GroupBy.
From Stdlib Require Import Sorted.
Import PyStr Frame GroupBy.

Module Options.

Section Sorting.
Context `{KeyOrder K}.

(** [Series.unique()]: the distinct values in order of first appearance. *)
Fixpoint py_unique_from (seen : list K) (l : list K) : list K :=
  match l with
  | [] => []
  | x :: l' => if bool_decide (x ∈ seen) then py_unique_from seen l'
               else x :: py_unique_from (x :: seen) l'
  end.

Definition py_unique (l : list K) : list K := py_unique_from [] l.

(** One insertion step of a stable sort: [x] goes before the first
    element greater than it. *)
Fixpoint insert_sorted (x : K) (l : list K) : list K :=
  match l with
  | [] => [x]
  | y :: l' => if key_ltb x y then x :: l else y :: insert_sorted x l'
  end.

(** [sorted(l)]. *)
Definition py_sorted (l : list K) : list K :=
  foldl (fun acc x => insert_sorted x acc) [] l.

Definition key_ltP (a b : K) : Prop := key_ltb a b = true.

(** *** Lemmas on sorting *)

Lemma key_ltP_trans : Relations_1.Transitive key_ltP.
Proof. intros a b c. apply key_ltb_trans. Qed.

Lemma insert_sorted_perm x l : insert_sorted x l ≡ₚ x :: l.
Proof.
  induction l as [|y l IH]; simpl; [done|].
  destruct (key_ltb x y); [done|]. rewrite IH. apply perm_swap.
Qed.

Lemma py_sorted_perm l : py_sorted l ≡ₚ l.
Proof.
  unfold py_sorted. induction l as [|x l IH] using rev_ind; [done|].
  rewrite foldl_app; simpl. rewrite insert_sorted_perm, IH. apply Permutation_cons_append.
Qed.

Lemma key_ltb_other x y : x <> y -> key_ltb x y = false -> key_ltP y x.
Proof.
  intros Hne Hxy. unfold key_ltP. destruct (key_ltb y x) eqn:E; [done|].
  by pose proof (key_ltb_total _ _ Hxy E).
Qed.

Lemma insert_sorted_HdRel y x l :
  key_ltP y x -> HdRel key_ltP y l -> HdRel key_ltP y (insert_sorted x l).
Proof.
  intros Hyx Hd. destruct l as [|z l]; simpl; [by constructor|].
  destruct (key_ltb x z); constructor; [done|]. by inversion Hd.
Qed.

Lemma insert_sorted_sorted x l :
  Sorted key_ltP l -> x ∉ l -> Sorted key_ltP (insert_sorted x l).
Proof.
  induction l as [|y l IH]; simpl; intros Hs Hx; [by repeat constructor|].
  inversion Hs as [|? ? Hl Hd]; subst.
  destruct (key_ltb x y) eqn:E; [constructor; [done|by constructor]|].
  constructor; [apply IH; [done|set_solver]|].
  apply insert_sorted_HdRel; [|done]. apply key_ltb_other; [set_solver|done].
Qed.

Lemma py_sorted_sorted l : NoDup l -> Sorted key_ltP (py_sorted l).
Proof.
  unfold py_sorted. induction l as [|x l IH] using rev_ind; intros Hnd; [constructor|].
  apply NoDup_app in Hnd as (Hl & Hx & _). rewrite foldl_app; simpl.
  apply insert_sorted_sorted; [by apply IH|].
  fold (py_sorted l). rewrite py_sorted_perm. intros Hin. by apply (Hx x); [|left].
Qed.

Lemma py_unique_from_spec seen l :
  NoDup (py_unique_from seen l) /\
  (forall x, x ∈ py_unique_from seen l <-> x ∈ l /\ x ∉ seen).
Proof.
  revert seen. induction l as [|y l IH]; intros seen; simpl.
  - split; [constructor|]. intros x. rewrite elem_of_nil. tauto.
  - case_bool_decide as Hy.
    + destruct (IH seen) as [Hnd Hin]. split; [done|]. intros x. rewrite Hin, elem_of_cons.
      destruct (decide (x = y)) as [->|Hxy]; tauto.
    + destruct (IH (y :: seen)) as [Hnd Hin]. split.
      * constructor; [|done]. rewrite Hin, elem_of_cons. tauto.
      * intros x. rewrite elem_of_cons, Hin, !elem_of_cons.
        destruct (decide (x = y)) as [->|Hxy]; tauto.
Qed.

(** The table pairing each key of a list with its count. *)
Lemma assoc_map_count (f : K -> nat) s j :
  assoc (map (fun k => (k, f k)) s) j = if bool_decide (j ∈ s) then f j else 0.
Proof.
  induction s as [|k s IH]; simpl; [done|]. rewrite IH.
  destruct (decide (j = k)) as [->|Hj].
  - rewrite bool_decide_eq_true_2; [done|]. apply elem_of_cons. by left.
  - rewrite (bool_decide_ext (j ∈ k :: s) (j ∈ s)); [done|]. rewrite elem_of_cons. tauto.
Qed.

Lemma Sorted_key_map (f : K -> nat) s :
  Sorted key_ltP s -> Sorted key_lt (map (fun k => (k, f k)) s).
Proof.
  induction 1 as [|a s Hs IH Hd]; simpl; constructor; [done|].
  destruct Hd as [|b l Hab]; simpl; constructor. done.
Qed.

Lemma key_count_pos (l : list K) (k : K) : k ∈ l -> 0 < key_count l k.
Proof.
  intros Hk. unfold key_count. destruct (List.filter _ l) eqn:E; simpl; [|lia].
  assert (k ∈ List.filter (fun x => bool_decide (x = k)) l) as Hf
    by (apply elem_of_List_filter; split; [done|by apply bool_decide_eq_true]).
  rewrite E in Hf. set_solver.
Qed.

Lemma key_count_absent (l : list K) (k : K) : k ∉ l -> key_count l k = 0.
Proof.
  intros Hk. unfold key_count. destruct (List.filter _ l) as [|x l'] eqn:E; [done|].
  assert (x ∈ List.filter (fun y => bool_decide (y = k)) l) as Hf by (rewrite E; left).
  apply elem_of_List_filter in Hf as [Hx Hxk%bool_decide_eq_true]. subst. done.
Qed.

(** The group keys are the distinct keys, in increasing order. *)
Lemma py_sorted_unique_group (l : list K) : py_sorted (py_unique l) = map fst (group_size l).
Proof.
  destruct (py_unique_from_spec [] l) as [Hnd Hin].
  set (s := py_sorted (py_unique l)).
  assert (Hs : forall x, x ∈ s <-> x ∈ l).
  { intros x. unfold s. rewrite py_sorted_perm. unfold py_unique. rewrite Hin, elem_of_nil. tauto. }
  destruct (group_size_inv l) as (Hok & Ha & _).
  assert (map (fun k => (k, key_count l k)) s = group_size l) as <-.
  { apply table_ext; [split| |].
    - apply Sorted_key_map, py_sorted_sorted, Hnd.
    - apply Forall_forall. intros [k n] (k' & [= -> ->] & Hk)%list_elem_of_fmap.
      apply key_count_pos. by apply Hs.
    - done.
    - intros j. rewrite assoc_map_count, Ha. case_bool_decide as Hj; [done|].
      symmetry. apply key_count_absent. by rewrite <- Hs. }
  rewrite map_map. simpl. by rewrite map_id.
Qed.

End Sorting.

(** Lines 13-14: [df[c]] raises KeyError when the column is absent. *)
Definition column_options (t : Table) (c : string) (get : Row -> option string) : result (list string) :=
  if has_column t c then Ok (py_sorted (py_unique (omap get (rows t)))) else Err (KeyError c).

Definition countries (t : Table) : result (list string) := column_options t "Country" Country.
Definition companies (t : Table) : result (list string) := column_options t "Company_Name" Company_Name.

(** [Series.min()] and [Series.max()]: [NaN] (here [None]) when empty. *)
Definition py_min (l : list Z) : option Z :=
  match l with [] => None | x :: l' => Some (foldl Z.min x l') end.
Definition py_max (l : list Z) : option Z :=
  match l with [] => None | x :: l' => Some (foldl Z.max x l') end.

(** Line 15: [int(NaN)] raises ValueError. *)
Definition year_bounds (t : Table) : result (Z * Z) :=
  match py_min (map Year (rows t)), py_max (map Year (rows t)) with
  | Some lo, Some hi => Ok (lo, hi)
  | _, _ => Err (ValueError "cannot convert float NaN to integer")
  end.

(** [range(start, stop, step)] for a positive step, counted by its length. *)
Fixpoint range_n (start step : Z) (n : nat) : list Z :=
  match n with
  | O => []
  | S n' => start :: range_n (start + step) step n'
  end.

Definition py_range (start stop step : Z) : list Z :=
  range_n start step (Z.to_nat ((stop - start + step - 1) / step)).

(** The [marks] of the slider (line 46). *)
Definition slider_marks (min_year max_year : Z) : list (Z * string) :=
  map (fun y => (y, py_str_Z y)) (py_range min_year (max_year + 1) 5).

(** [[{'label':c,'value':c} for c in ...]]. *)
Definition dropdown_options (l : list string) : list (string * string) := map (fun c => (c, c)) l.

(** The input components of [app.layout] (lines 26-58) as the values
    that fill them; the styling is not modelled. *)
Record Layout := mkLayout {
  country_options : list (string * string);
  company_options : list (string * string);
  slider_min : Z;
  slider_max : Z;
  slider_value : list Z;
  slider_marks_of : list (Z * string);
  slider_step : Z
}.

(** Lines 13-15 then 26-58. *)
Definition layout (t : Table) : result Layout :=
  let? cs := countries t in
  let? cos := companies t in
  let? b := year_bounds t in
  let '(min_year, max_year) := b in
  Ok (mkLayout (dropdown_options cs) (dropdown_options cos) min_year max_year
         [min_year; max_year] (slider_marks min_year max_year) 1).

(** ** Lemmas *)

Lemma foldl_min_spec x l :
  Forall (fun y => foldl Z.min x l <= y)%Z (x :: l) /\ foldl Z.min x l ∈ x :: l.
Proof.
  revert x. induction l as [|y l IH]; intros x; simpl.
  - split; [repeat constructor; lia|left].
  - destruct (IH (Z.min x y)) as [Hf Hin]. inversion Hf as [|? ? Hxy Hl]; subst.
    split; [constructor; [|constructor]; [lia|lia|done]|].
    apply elem_of_cons in Hin as [->|Hin]; [|by right; right].
    destruct (Z.min_spec x y) as [[_ ->]|[_ ->]]; [left|right; left].
Qed.

Lemma foldl_max_spec x l :
  Forall (fun y => y <= foldl Z.max x l)%Z (x :: l) /\ foldl Z.max x l ∈ x :: l.
Proof.
  revert x. induction l as [|y l IH]; intros x; simpl.
  - split; [repeat constructor; lia|left].
  - destruct (IH (Z.max x y)) as [Hf Hin]. inversion Hf as [|? ? Hxy Hl]; subst.
    split; [constructor; [|constructor]; [lia|lia|done]|].
    apply elem_of_cons in Hin as [->|Hin]; [|by right; right].
    destruct (Z.max_spec x y) as [[_ ->]|[_ ->]]; [right; left|left].
Qed.

(** The bounds of a non-empty table are its least and greatest year. *)
Lemma year_bounds_Ok t lo hi :
  year_bounds t = Ok (lo, hi) ->
  Forall (fun r => lo <= Year r <= hi)%Z (rows t) /\
  (exists r, r ∈ rows t /\ Year r = lo) /\ (exists r, r ∈ rows t /\ Year r = hi).
Proof.
  unfold year_bounds. destruct (rows t) as [|r rs] eqn:Er; simpl; [discriminate|].
  intros [= <- <-].
  destruct (foldl_min_spec (Year r) (map Year rs)) as [Hmin Hmin'].
  destruct (foldl_max_spec (Year r) (map Year rs)) as [Hmax Hmax'].
  change (Year r :: map Year rs) with (map Year (r :: rs)) in *.
  rewrite Forall_map in Hmin, Hmax. split; [|split].
  - eapply Forall_impl; [apply Forall_and; split; [exact Hmin|exact Hmax]|]. simpl. lia.
  - apply list_elem_of_fmap in Hmin' as (r' & -> & ?). eauto.
  - apply list_elem_of_fmap in Hmax' as (r' & -> & ?). eauto.
Qed.

Lemma year_bounds_nonempty t : rows t <> [] -> exists lo hi, year_bounds t = Ok (lo, hi).
Proof. unfold year_bounds. destruct (rows t); [done|]. simpl. eauto. Qed.

Lemma elem_of_range_n a s n y :
  y ∈ range_n a s n <-> exists i, (i < n)%nat /\ y = (a + s * Z.of_nat i)%Z.
Proof.
  revert a. induction n as [|n IH]; intros a; simpl.
  - rewrite elem_of_nil. split; [done|]. intros (i & ? & _). lia.
  - rewrite elem_of_cons, IH. split.
    + intros [->|(i & Hi & ->)]; [exists 0%nat; split; lia|exists (S i); split; lia].
    + intros ([|i] & Hi & ->); [left; lia|right; exists i; split; lia].
Qed.

Lemma elem_of_py_range a b s y :
  (0 < s)%Z -> y ∈ py_range a b s <-> (a <= y < b /\ (y - a) mod s = 0)%Z.
Proof.
  intros Hs. unfold py_range. rewrite elem_of_range_n.
  pose proof (Z.mul_div_le (b - a + s - 1) s Hs).
  pose proof (Z.mod_pos_bound (b - a + s - 1) s Hs).
  pose proof (Z.div_mod (b - a + s - 1) s ltac:(lia)) as Hdm.
  set (q := ((b - a + s - 1) / s)%Z). split.
  - intros (i & Hi & ->). assert (Z.of_nat i + 1 <= q)%Z by lia.
    split; [nia|]. replace (a + s * Z.of_nat i - a)%Z with (Z.of_nat i * s)%Z by lia.
    apply Z.mod_mul. lia.
  - intros [Hy Hm]. pose proof (Z.div_mod (y - a) s ltac:(lia)) as Hd. rewrite Hm in Hd.
    assert (0 <= (y - a) / s)%Z by (apply Z.div_pos; lia).
    exists (Z.to_nat ((y - a) / s)). split; [|lia].
    assert ((y - a) / s + 1 <= q)%Z; [|lia].
    apply Z.div_le_lower_bound; lia.
Qed.

(** The options of a present column: the distinct values, sorted. *)
Lemma column_options_Ok t c get opts :
  column_options t c get = Ok opts ->
  opts = map fst (group_size (omap get (rows t))) /\ Sorted key_ltP opts /\
  (forall v, v ∈ opts <-> v ∈ omap get (rows t)).
Proof.
  unfold column_options. destruct (has_column t c); [|discriminate]. intros [= <-].
  destruct (py_unique_from_spec [] (omap get (rows t))) as [Hnd Hin].
  split; [apply py_sorted_unique_group|]. split; [by apply py_sorted_sorted|].
  intros v. rewrite py_sorted_perm. unfold py_unique. rewrite Hin, elem_of_nil. tauto.
Qed.

(** What start-up promises the callback: the initial slider value is a
    two-year range containing every year of the table. *)
Lemma layout_Ok t L :
  layout t = Ok L ->
  slider_value L = [slider_min L; slider_max L] /\ (slider_min L <= slider_max L)%Z /\
  Forall (fun r => slider_min L <= Year r <= slider_max L)%Z (rows t).
Proof.
  unfold layout. destruct (countries t) as [cs|]; simpl; [|discriminate].
  destruct (companies t) as [cos|]; simpl; [|discriminate].
  destruct (year_bounds t) as [[lo hi]|] eqn:Eb; simpl; [|discriminate]. intros [= <-]; simpl.
  destruct (year_bounds_Ok _ _ _ Eb) as (Hf & (r & Hr & _) & _).
  split; [done|]. split; [|done]. eapply Forall_forall in Hf; [|done]. lia.
Qed.

(** ** Theorems *)

(** C31: the options of a dropdown, [sorted(df[c].dropna().unique())],
    are the group keys of [group_size] on the column's present values
    (the pandas one-liner computes the same list as a group-by), strictly
    increasing, and a value is offered exactly when some row has it; a
    missing column raises KeyError. *)
Theorem column_options_spec t c get opts :
  (has_column t c = false -> column_options t c get = Err (KeyError c)) /\
  (column_options t c get = Ok opts ->
   opts = map fst (group_size (omap get (rows t))) /\ Sorted key_ltP opts /\
   (forall v, v ∈ opts <-> exists r, r ∈ rows t /\ get r = Some v)).
Proof.
  split; [unfold column_options; by intros ->|].
  intros (Heq & Hs & Hin)%column_options_Ok. do 2 (split; [done|]).
  intros v. rewrite Hin. apply list_elem_of_omap.
Qed.

(** C32: the slider bounds of line 15: for a table with a row they are
    its least and greatest year, both reached; an empty table makes
    [int(df['Year'].min())] raise ValueError, and the program does not
    start. *)
Theorem year_bounds_spec t :
  (rows t = [] -> year_bounds t = Err (ValueError "cannot convert float NaN to integer")) /\
  (rows t <> [] -> exists lo hi, year_bounds t = Ok (lo, hi) /\
     Forall (fun r => lo <= Year r <= hi)%Z (rows t) /\
     (exists r, r ∈ rows t /\ Year r = lo) /\ (exists r, r ∈ rows t /\ Year r = hi)).
Proof.
  split; [unfold year_bounds; by intros ->|].
  intros (lo & hi & Hb)%year_bounds_nonempty. exists lo, hi. split; [done|]. by apply year_bounds_Ok.
Qed.

(** C33: the slider marks of line 46 are the years [lo], [lo+5], ... up
    to [hi] included, each labelled with [str(y)]. *)
Theorem slider_marks_spec lo hi y lbl :
  (y, lbl) ∈ slider_marks lo hi <-> (lo <= y <= hi /\ (y - lo) mod 5 = 0 /\ lbl = py_str_Z y)%Z.
Proof.
  unfold slider_marks. rewrite list_elem_of_fmap. split.
  - intros (y' & [= -> ->] & Hy). apply elem_of_py_range in Hy; [|lia]. split; [lia|]. tauto.
  - intros (Hy & Hm & ->). exists y. split; [done|]. apply elem_of_py_range; [lia|]. lia.
Qed.

(** C34: a successful start-up gives a slider whose value is its full
    range [[min_year, max_year]], with a mark at [min_year] and every
    year of the table inside the range, step 1, and dropdowns offering
    [(c, c)] for each sorted distinct country and company. *)
Theorem layout_spec t L :
  layout t = Ok L ->
  slider_value L = [slider_min L; slider_max L] /\ (slider_min L <= slider_max L)%Z /\
  Forall (fun r => slider_min L <= Year r <= slider_max L)%Z (rows t) /\
  (slider_min L, py_str_Z (slider_min L)) ∈ slider_marks_of L /\ slider_step L = 1%Z /\
  country_options L = map (fun c => (c, c)) (map fst (group_size (omap Country (rows t)))) /\
  company_options L = map (fun c => (c, c)) (map fst (group_size (omap Company_Name (rows t)))).
Proof.
  intros HL. destruct (layout_Ok _ _ HL) as (Hv & Hle & Hf). do 3 (split; [done|]).
  revert HL. unfold layout. destruct (countries t) as [cs|] eqn:Ec; simpl; [|discriminate].
  destruct (companies t) as [cos|] eqn:Eco; simpl; [|discriminate].
  destruct (year_bounds t) as [[lo hi]|]; simpl; [|discriminate]. intros [= <-]; simpl in *.
  split; [apply slider_marks_spec; split; [lia|]; split; [by rewrite Z.sub_diag|done]|].
  split; [done|]. apply column_options_Ok in Ec as [-> _], Eco as [-> _]. done.
Qed.

(** ** Witnesses *)

(** Four launches of 1998-2011, one without a country. *)
Definition opt_sample : Table :=
  mkTable ["Year"; "Country"; "Company_Name"]
    [ mkRow 2005 (Some "USA") (Some "NASA") None None;
      mkRow 1998 (Some "Russia") (Some "RVSN") None None;
      mkRow 2011 (Some "USA") (Some "SpaceX") None None;
      mkRow 2003 None (Some "NASA") None None ].

Lemma column_options_spec_witness :
  column_options opt_sample "Country" Country = Ok ["Russia"; "USA"] /\
  Sorted key_ltP ["Russia"; "USA"].
Proof.
  split; [vm_compute; reflexivity|].
  refine (proj1 (proj2 (proj2 (column_options_spec opt_sample "Country" Country _) _)));
    vm_compute; reflexivity.
Defined.

Lemma year_bounds_spec_witness : exists lo hi, year_bounds opt_sample = Ok (lo, hi) /\
  Forall (fun r => lo <= Year r <= hi)%Z (rows opt_sample) /\
  (exists r, r ∈ rows opt_sample /\ Year r = lo) /\ (exists r, r ∈ rows opt_sample /\ Year r = hi).
Proof. apply (proj2 (year_bounds_spec opt_sample)). discriminate. Defined.

Lemma layout_spec_witness :
  exists L, layout opt_sample = Ok L /\ slider_marks_of L = [(1998, "1998"); (2003, "2003"); (2008, "2008")]%Z /\
    slider_value L = [slider_min L; slider_max L].
Proof.
  eexists. split; [vm_compute; reflexivity|]. split; [vm_compute; reflexivity|].
  refine (proj1 (layout_spec opt_sample _ _)). vm_compute. reflexivity.
Defined.

End Options.
