(* ===== verification/Page.v ===== *)
(** The page and its wiring (src/dashboard.py, lines 26-58 and 68-77):
    [app.layout] as a tree of Dash components, the [@app.callback]
    declaration as the lists of its [Output] and [Input] (component id,
    property) pairs, and the return tuple of [update] (line 116) as the
    values Dash writes to the outputs.

    A component keeps its id, its kind and the properties the code sets
    that the callbacks read or write ([options], [value], [min], [max],
    [marks], [step]); the [style] dictionaries and the text of headings
    and labels are kept only as far as they name the page's parts.  Dash
    resolves a callback's ids in the layout ([resolve]: the one component
    with that id, [IdNotFound] otherwise); the initial callback reads its
    inputs from the components' [value]s ([initial_inputs]), and each run
    writes the returned tuple to the output properties in order
    ([screen]). *)

From S2P Require Import Prelude PyStr Frame Kpi Charts Dashboard Options.
Import PyStr Frame Kpi Charts Dashboard Options.

Module Page.

(** The components of [dash.html] and [dash.dcc] the layout uses. *)
Inductive Component :=
| Div (id : option string) (children : list Component)
| H1 (text : string)
| Label (text : string)
| Hr
| Dropdown (id : string) (options : list (string * string)) (value : option (list string))
    (placeholder : string) (multi : bool)
| RangeSlider (id : string) (min max : Z) (value : list Z) (marks : list (Z * string)) (step : Z)
| Graph (id : string).

(** The properties named in [Output(...)] and [Input(...)]. *)
Inductive DashProp := PChildren | PFigure | PValue.

#[export] Instance DashProp_eq_dec : EqDecision DashProp.
Proof. solve_decision. Defined.

(** A value Dash moves between the server and a component property. *)
Inductive PropValue :=
| VCards (cards : list kpi_card)
| VFigure (fig : Figure)
| VText (s : string)
| VSelection (v : option (list string))
| VRange (v : list Z).

(** Lines 26-58, with the values of lines 13-15 taken from [L]. *)
Definition page (L : Layout) : Component :=
  Div None [
    H1 "Space Missions Dashboard";
    Div (Some "kpi-row") [];
    Div None [
      Div None [Label "Country";
                Dropdown "country_filter" (country_options L) None "All countries" true];
      Div None [Label "Company";
                Dropdown "company_filter" (company_options L) None "All companies" true];
      Div None [Label "Year range";
                RangeSlider "year_slider" (slider_min L) (slider_max L) (slider_value L)
                  (slider_marks_of L) (slider_step L)]];
    Hr;
    Graph "launches_time";
    Graph "top_countries";
    Graph "missions_outcomes";
    Div (Some "debug") []].

(** Lines 68-72. *)
Definition callback_outputs : list (string * DashProp) :=
  [("kpi-row", PChildren); ("launches_time", PFigure); ("top_countries", PFigure);
   ("missions_outcomes", PFigure); ("debug", PChildren)].

(** Lines 74-76. *)
Definition callback_inputs : list (string * DashProp) :=
  [("country_filter", PValue); ("company_filter", PValue); ("year_slider", PValue)].

(** Line 116: [return kpis, fig1, fig2, fig3, f"Filtered rows: ..."]. *)
Definition output_values (o : Output) : list PropValue :=
  [VCards (kpi_row o); VFigure (launches_time o); VFigure (top_countries o);
   VFigure (missions_outcomes o); VText (debug o)].

(** The id of a component, if it has one. *)
Definition comp_id (c : Component) : option string :=
  match c with
  | Div i _ => i
  | Dropdown i _ _ _ _ | RangeSlider i _ _ _ _ _ | Graph i => Some i
  | H1 _ | Label _ | Hr => None
  end.

(** All components of a tree, in document order. *)
Fixpoint subtree (c : Component) : list Component :=
  c :: match c with
       | Div _ children => (fix go (l : list Component) : list Component :=
                              match l with [] => [] | x :: l' => subtree x ++ go l' end) children
       | _ => []
       end.

Definition ids (c : Component) : list string := omap comp_id (subtree c).

(** The components with id [i]. *)
Definition find_id (c : Component) (i : string) : list Component :=
  List.filter (fun x => bool_decide (comp_id x = Some i)) (subtree c).

(** The current value of an input property. *)
Definition prop_value (c : Component) (p : DashProp) : option PropValue :=
  match c, p with
  | Dropdown _ _ v _ true, PValue => Some (VSelection v)
  | RangeSlider _ _ _ v _ _, PValue => Some (VRange v)
  | _, _ => None
  end.

(** The single component an id names. *)
Definition resolve (c : Component) (i : string) : option Component :=
  match find_id c i with [x] => Some x | _ => None end.

(** What the page shows after a callback run: each output property of
    lines 68-72 receives the value at its position in the returned tuple
    (line 116). *)
Definition screen (o : Output) : list ((string * DashProp) * PropValue) :=
  zip callback_outputs (output_values o).

(** The value shown in the output property [k]. *)
Definition screen_value (o : Output) (k : string * DashProp) : option PropValue :=
  (fun p => p.2.2) <$> list_find (fun q => q.1 = k) (screen o).

(** The property [p] of the input component [i]. *)
Definition input_value (c : Component) (i : string) (p : DashProp) : result PropValue :=
  match resolve c i ≫= fun x => prop_value x p with
  | Some v => Ok v
  | None => Err (IdNotFound i)
  end.

(** The arguments of the initial callback: the inputs of lines 74-76,
    in order, read from the layout. *)
Definition initial_inputs (c : Component) : result (option (list string) * option (list string) * list Z) :=
  let? vals := result_map (fun '(i, p) => input_value c i p) callback_inputs in
  match vals with
  | [VSelection sc; VSelection sco; VRange yr] => Ok (sc, sco, yr)
  | _ => Err (TypeError "callback input of the wrong type")
  end.

(** ** Theorems *)

(** The initial callback receives no selection in either dropdown and the
    slider's full range. *)
Lemma initial_inputs_page L : initial_inputs (page L) = Ok (None, None, slider_value L).
Proof. reflexivity. Qed.

(** Where the callback's results appear: the KPI cards in [kpi-row],
    chart 1, 2 and 3 in the three graphs, the debug text in [debug]. *)
Lemma screen_values o :
  screen_value o ("kpi-row", PChildren) = Some (VCards (kpi_row o)) /\
  screen_value o ("launches_time", PFigure) = Some (VFigure (launches_time o)) /\
  screen_value o ("top_countries", PFigure) = Some (VFigure (top_countries o)) /\
  screen_value o ("missions_outcomes", PFigure) = Some (VFigure (missions_outcomes o)) /\
  screen_value o ("debug", PChildren) = Some (VText (debug o)).
Proof. split_and!; reflexivity. Qed.

End Page.
