(* ===== verification/Session.v ===== *)
(** The running page (src/dashboard.py, lines 26-58 and 68-76): the
    callback [update] is wired to the two dropdowns and the slider, and
    Dash calls it once when the page loads (with the layout's initial
    values: no selection, the slider at [[min_year, max_year]]) and again
    after every change of an input.  The page's state is the three input
    values and the five outputs last returned.

    The events a component can send are those its layout allows: a
    dropdown value is [None] or a list of its option values, the slider
    sends two years within [[min_year, max_year]] (in either order; the
    model does not rely on the handles being ordered).  [ui_step] is one
    event and the callback run it triggers; [reachable] is the set of
    states the page can show.  The theorems are an invariant of the
    reachable states, progress (the callback never raises on a reachable
    page, so every event is answered), and that the first view shows the
    whole table. *)

From S2P Require Import Prelude PyStr Frame Filter Kpi Dashboard Options Page.
Import PyStr Frame Filter Kpi Dashboard Options Page.

Module Session.

(** The values of the three inputs and the outputs on screen. *)
Record UiState := mkUi {
  sel_countries : option (list string);
  sel_companies : option (list string);
  year_range : list Z;
  shown : Output
}.

(** A change of one input component. *)
Inductive Event :=
| SetCountries (v : option (list string))
| SetCompanies (v : option (list string))
| MoveSlider (lo hi : Z).

(** A multi-select dropdown sends [None] or some of its option values. *)
Definition selection_ok (opts : list (string * string)) (v : option (list string)) : bool :=
  match v with
  | None => true
  | Some l => forallb (fun c => bool_decide (c ∈ map snd opts)) l
  end.

(** The events the layout's components can send. *)
Definition event_ok (L : Layout) (e : Event) : bool :=
  match e with
  | SetCountries v => selection_ok (country_options L) v
  | SetCompanies v => selection_ok (company_options L) v
  | MoveSlider lo hi =>
      (slider_min L <=? lo)%Z && (lo <=? slider_max L)%Z &&
      (slider_min L <=? hi)%Z && (hi <=? slider_max L)%Z
  end.

(** The callback run with the given inputs; its outputs replace the
    screen (lines 68-76). *)
Definition fire (df : Table) (sc sco : option (list string)) (yr : list Z) : result UiState :=
  let? o := update df sc sco yr in Ok (mkUi sc sco yr o).

(** The inputs after an event. *)
Definition apply_event (df : Table) (s : UiState) (e : Event) : result UiState :=
  match e with
  | SetCountries v => fire df v (sel_companies s) (year_range s)
  | SetCompanies v => fire df (sel_countries s) v (year_range s)
  | MoveSlider lo hi => fire df (sel_countries s) (sel_companies s) [lo; hi]
  end.

(** Start-up: lines 7-58 build the layout, then the initial callback
    runs on the [value]s of the input components. *)
Definition start (df : Table) : result (Layout * UiState) :=
  let? L := layout df in
  let? inputs := initial_inputs (page L) in
  let '(sc, sco, yr) := inputs in
  let? s := fire df sc sco yr in
  Ok (L, s).

Inductive ui_step (df : Table) (L : Layout) : UiState -> UiState -> Prop :=
| step_event s e s' :
    event_ok L e = true -> apply_event df s e = Ok s' -> ui_step df L s s'.

Inductive reachable (df : Table) (L : Layout) : UiState -> Prop :=
| reach_start s : start df = Ok (L, s) -> reachable df L s
| reach_step s s' : reachable df L s -> ui_step df L s s' -> reachable df L s'.

(** The invariant of the page. *)
Definition ui_inv (df : Table) (L : Layout) (s : UiState) : Prop :=
  (exists lo hi, year_range s = [lo; hi] /\
     (slider_min L <= lo <= slider_max L)%Z /\ (slider_min L <= hi <= slider_max L)%Z) /\
  selection_ok (country_options L) (sel_countries s) = true /\
  selection_ok (company_options L) (sel_companies s) = true /\
  update df (sel_countries s) (sel_companies s) (year_range s) = Ok (shown s).

(** ** Lemmas *)

(** With a two-year range the callback always returns. *)
Lemma update_Ok df sc sco lo hi : exists o, update df sc sco [lo; hi] = Ok o.
Proof. unfold update. rewrite filter_df_unfold. simpl. destruct (empty _); eauto. Qed.

Lemma fire_Ok df sc sco yr s :
  fire df sc sco yr = Ok s ->
  s = mkUi sc sco yr (shown s) /\ update df sc sco yr = Ok (shown s).
Proof.
  unfold fire. destruct (update df sc sco yr) as [o|]; simpl; [|discriminate].
  by intros [= <-].
Qed.

Lemma ui_inv_start df L s : start df = Ok (L, s) -> ui_inv df L s.
Proof.
  unfold start. destruct (layout df) as [L'|] eqn:EL; cbn [rbind]; [|discriminate].
  rewrite initial_inputs_page; cbn [rbind].
  destruct (fire _ _ _ _) as [s'|] eqn:Ef; simpl; [|discriminate]. intros [= <- <-].
  destruct (layout_Ok _ _ EL) as (Hv & Hle & _).
  apply fire_Ok in Ef as [-> Hu]. rewrite Hv in Hu |- *. unfold ui_inv; simpl.
  split_and!; [exists (slider_min L'), (slider_max L'); split; [done|lia]|done..].
Qed.

Lemma ui_inv_step df L s s' : ui_inv df L s -> ui_step df L s s' -> ui_inv df L s'.
Proof.
  intros Hinv Hst. revert Hinv. destruct Hst as [s e s' He Ha].
  intros ((lo & hi & Hr & Hlo & Hhi) & Hc & Hco & _).
  destruct e as [v|v|lo' hi']; simpl in He, Ha;
    apply fire_Ok in Ha as [-> Hu]; unfold ui_inv; simpl in Hu |- *.
  - split_and!; [exists lo, hi; auto|done..].
  - split_and!; [exists lo, hi; auto|done..].
  - rewrite !andb_true_iff, !Z.leb_le in He. split_and!; [exists lo', hi'; split; [done|lia]|done..].
Qed.

Lemma ui_progress df L s e :
  ui_inv df L s -> event_ok L e = true -> exists s', ui_step df L s s'.
Proof.
  intros ((lo & hi & Hr & _) & _) He.
  assert (Hf : forall sc sco lo' hi', exists s', fire df sc sco [lo'; hi'] = Ok s').
  { intros. destruct (update_Ok df sc sco lo' hi') as [o Ho]. unfold fire. rewrite Ho. eauto. }
  destruct e as [v|v|lo' hi'];
    [destruct (Hf v (sel_companies s) lo hi) as [s' Hs']
    |destruct (Hf (sel_countries s) v lo hi) as [s' Hs']
    |destruct (Hf (sel_countries s) (sel_companies s) lo' hi') as [s' Hs']];
    exists s'; eapply step_event; [done| |done| |done|]; simpl; rewrite ?Hr; done.
Qed.

(** Every reachable state satisfies [ui_inv], by induction on the run. *)
Lemma reachable_ui_inv df L s : reachable df L s -> ui_inv df L s.
Proof.
  induction 1 as [s Hs|s s' _ IH Hst]; [by apply ui_inv_start|]. by eapply ui_inv_step.
Qed.

(** A well-formed table with a row starts the page. *)
Lemma start_Ok df : table_wf df -> rows df <> [] -> exists L s, start df = Ok (L, s).
Proof.
  intros (_ & Hc & Hco & _) Hne. destruct (year_bounds_nonempty _ Hne) as (lo & hi & Hb).
  unfold start, layout, countries, companies, column_options, has_column.
  rewrite !bool_decide_eq_true_2 by done. cbn [rbind]. rewrite Hb. cbn [rbind].
  set (L := mkLayout _ _ _ _ _ _ _). rewrite initial_inputs_page. cbn [rbind].
  destruct (update_Ok df None None lo hi) as [o Ho]. unfold fire. simpl. rewrite Ho. simpl. eauto.
Qed.

(** ** Theorems *)

(** C35: a page with data starts, and every state it can reach holds two
    slider years within [[min_year, max_year]], dropdown values among the
    options, and shows in [kpi-row] the KPIs of the rows of [df] that the
    current inputs select (not of [df], not of a previous selection). *)
Theorem reachable_inv df :
  table_wf df -> rows df <> [] ->
  exists L s0, start df = Ok (L, s0) /\
  forall s, reachable df L s ->
    exists lo hi, year_range s = [lo; hi] /\
      (slider_min L <= lo <= slider_max L)%Z /\ (slider_min L <= hi <= slider_max L)%Z /\
      selection_ok (country_options L) (sel_countries s) = true /\
      selection_ok (company_options L) (sel_companies s) = true /\
      screen_value (shown s) ("kpi-row", PChildren) =
        Some (VCards (kpis (select df (row_selected (sel_countries s) (sel_companies s) lo hi)))).
Proof.
  intros Hwf Hne. destruct (start_Ok df Hwf Hne) as (L & s0 & Hs0).
  exists L, s0. split; [done|]. intros s Hr.
  destruct (reachable_ui_inv _ _ _ Hr) as ((lo & hi & Hyr & Hlo & Hhi) & Hc & Hco & Hu).
  exists lo, hi. do 5 (split; [done|]).
  rewrite Hyr in Hu. destruct (update_filter _ _ _ _ _ Hu) as (dff & Hf & Hk & _).
  rewrite filter_df_unfold in Hf. injection Hf as <-.
  destruct (screen_values (shown s)) as [-> _]. by rewrite Hk.
Qed.

(** C36: progress: a page with data starts, and on every page it can
    reach, every event the components can send triggers a callback run
    that returns (no IndexError or other exception). *)
Theorem reachable_progress df :
  table_wf df -> rows df <> [] ->
  exists L s0, start df = Ok (L, s0) /\
  forall s e, reachable df L s -> event_ok L e = true -> exists s', ui_step df L s s'.
Proof.
  intros Hwf Hne. destruct (start_Ok df Hwf Hne) as (L & s0 & Hs0).
  exists L, s0. split; [done|]. intros s e Hr He.
  apply (ui_progress _ _ _ e); [|done]. by apply reachable_ui_inv.
Qed.

(** C37: the first view shows the whole table: after start-up the
    filter keeps every row of [df] (no selection, the slider at the full
    year range), so the KPIs on screen are those of [df] itself. *)
Theorem start_shows_all df L s :
  start df = Ok (L, s) ->
  filter_df df (sel_countries s) (sel_companies s) (year_range s) = Ok df /\
  kpi_row (shown s) = kpis df.
Proof.
  unfold start. destruct (layout df) as [L'|] eqn:EL; cbn [rbind]; [|discriminate].
  rewrite initial_inputs_page; cbn [rbind].
  destruct (fire _ _ _ _) as [s'|] eqn:Ef; simpl; [|discriminate]. intros [= <- <-].
  destruct (layout_Ok _ _ EL) as (Hv & _ & Hall).
  apply fire_Ok in Ef as [Hs Hu]. rewrite Hs; simpl. rewrite Hv in Hu |- *.
  assert (Hf : filter_df df None None [slider_min L'; slider_max L'] = Ok df).
  { rewrite filter_df_unfold. destruct df as [cols rs]. unfold select; simpl. do 2 f_equal.
    apply List_filter_all. intros r Hr. eapply Forall_forall in Hall; [|done].
    unfold row_selected, accepts; simpl. rewrite !andb_true_r, andb_true_iff, !Z.leb_le. lia. }
  split; [done|]. destruct (update_filter _ _ _ _ _ Hu) as (dff & Hf' & Hk & _). congruence.
Qed.

(** ** Witnesses *)

Lemma reachable_inv_witness : exists L s0, start sample = Ok (L, s0).
Proof.
  destruct (reachable_inv sample sample_wf) as (L & s0 & Hs & _); [discriminate|].
  by exists L, s0.
Defined.

(** The sample page starts, and after selecting "USA" it answers a move
    of the slider. *)
Lemma reachable_progress_witness :
  exists L s s', start sample = Ok (L, s) /\
    apply_event sample s (SetCountries (Some ["USA"])) = Ok s' /\
    exists s'', ui_step sample L s' s''.
Proof.
  destruct (reachable_progress sample sample_wf) as (L & s0 & Hs0 & Hprog); [discriminate|].
  revert Hs0 Hprog. vm_compute. intros [= <- <-] Hprog.
  do 3 eexists. split; [reflexivity|]. split; [reflexivity|].
  apply (Hprog _ (MoveSlider 2000 2004)); [|reflexivity].
  eapply reach_step; [apply reach_start; vm_compute; reflexivity|].
  apply step_event with (e := SetCountries (Some ["USA"])); vm_compute; reflexivity.
Defined.

Lemma start_shows_all_witness :
  exists L s, start sample = Ok (L, s) /\
    filter_df sample (sel_countries s) (sel_companies s) (year_range s) = Ok sample /\
    kpi_row (shown s) = kpis sample.
Proof.
  do 2 eexists. split; [vm_compute; reflexivity|].
  eapply start_shows_all. vm_compute. reflexivity.
Defined.

End Session.
